(** * discord.ext.class_commands.commands

    A shallow embedding of [src/discord/ext/class_commands/commands.py]:
    the [Option] holder, [ParameterData], the class-construction hook
    [CommandMeta.__new__] and the reply helper [Command.send], followed by
    the properties of the specification stated over them. *)

From Stdlib Require Import ZArith String.
From stdpp Require Import base strings list gmap.

Local Open Scope string_scope.
Set Warnings "-register-all".

(** ** Python values, exceptions and effects *)

Module Py.

(** [discord.AppCommandType], the enumeration the module imports. *)
Inductive AppCommandType := chat_input | user | message.

(** The class objects the module tells apart.  [CFunction] is
    [types.FunctionType], [CType] the builtin [type], [CCommandMeta] the
    metaclass below and [CCommand n] a class it has created. *)
Inductive pyclass :=
| CFunction | CClassmethod | CStaticmethod | CType | CObject
| COption | CParameterData | CMissingSentinel | CAppCommandType
| CCommandMeta | CCommand (name : string)
| CNoneType | CBool | CInt | CStr | CDict
| CNamed (qualname : string).

#[global] Instance pyclass_eq_dec : EqDecision pyclass.
Proof. solve_decision. Defined.

(** Run-time objects.  Sentinels, class objects and enumeration members
    are singletons: for them identity is equality of the denotation.
    [VObject c i] is an instance of a class [c] not listed in [pyclass]. *)
Inductive value :=
| VNone
| VMISSING                                  (* discord.utils.MISSING *)
| V_empty                                   (* inspect.Parameter.empty *)
| VBool (b : bool)
| VInt (z : Z)
| VStr (s : string)
| VDict (items : list (string * value))
| VEnum (m : AppCommandType)
| VClass (c : pyclass)
| VBuiltinFunction (name : string)
| VFunction (qualname : string)             (* def, async def, lambda *)
| VClassmethod (qualname : string)
| VStaticmethod (qualname : string)
| VOption (default name description : value) (autocomplete : bool)
| VObject (cls : string) (ident : string).

Inductive exn :=
| NameError (name : string)
| TypeError (msg : string)
| ValueError (msg : string)
| AttributeError (attr : string)
| HostError (e : value).                    (* raised inside the host library *)

Inductive outcome (A : Type) :=
| Ok (a : A)
| Raise (e : exn).
Arguments Ok {A} a.
Arguments Raise {A} e.

(** Computations over a mutable store [S] that return or raise. *)
Definition M (S A : Type) : Type := S → S * outcome A.

Definition ret {S A} (a : A) : M S A := λ s, (s, Ok a).

Definition raise {S A} (e : exn) : M S A := λ s, (s, Raise e).

Definition bind {S A B} (m : M S A) (k : A → M S B) : M S B :=
  λ s, match m s with
       | (s', Ok a) => k a s'
       | (s', Raise e) => (s', Raise e)
       end.

Definition gets {S A} (f : S → A) : M S A := λ s, (s, Ok (f s)).

Definition modify {S} (f : S → S) : M S unit := λ s, (f s, Ok tt).

Declare Scope py_scope.
Delimit Scope py_scope with py.
Notation "x <- m ;; k" := (bind m (λ x, k))
  (at level 100, m at next level, right associativity) : py_scope.
Notation "m ;; k" := (bind m (λ _, k))
  (at level 100, right associativity) : py_scope.
Local Open Scope py_scope.

(** [if c: body] with no [else]. *)
Definition when {S} (c : bool) (body : M S unit) : M S unit :=
  if c then body else ret tt.

(** [for x in xs: body(x)]; an exception leaves the loop. *)
Fixpoint for_each {S A} (xs : list A) (body : A → M S unit) : M S unit :=
  match xs with
  | [] => ret tt
  | x :: rest => body x ;; for_each rest body
  end.

(** Insertion-ordered dictionaries with string keys. *)
Fixpoint dict_get {A} (d : list (string * A)) (k : string) : option A :=
  match d with
  | [] => None
  | (k', v) :: rest => if String.eqb k' k then Some v else dict_get rest k
  end.

(** [d[k] = v]: an existing key keeps its position, a new one goes last. *)
Fixpoint dict_set {A} (d : list (string * A)) (k : string) (v : A)
  : list (string * A) :=
  match d with
  | [] => [(k, v)]
  | (k', v') :: rest =>
      if String.eqb k' k then (k, v) :: rest else (k', v') :: dict_set rest k v
  end.

Definition keys {A} (d : list (string * A)) : list string := d.*1.

(** [type(v)], for the purposes of an exact-type test. *)
Definition type_of (v : value) : pyclass :=
  match v with
  | VNone => CNoneType
  | VMISSING => CMissingSentinel
  | V_empty => CType
  | VBool _ => CBool
  | VInt _ => CInt
  | VStr _ => CStr
  | VDict _ => CDict
  | VEnum _ => CAppCommandType
  | VClass (CCommand _) => CCommandMeta
  | VClass CAppCommandType => CNamed "enum.EnumMeta"
  | VClass _ => CType
  | VBuiltinFunction _ => CNamed "builtin_function_or_method"
  | VFunction _ => CFunction
  | VClassmethod _ => CClassmethod
  | VStaticmethod _ => CStaticmethod
  | VOption _ _ _ _ => COption
  | VObject c _ => CNamed c
  end.

(** [x is MISSING]. *)
Definition is_MISSING (v : value) : bool :=
  match v with VMISSING => true | _ => false end.

(** [x is y] for singletons: sentinels, classes, enumeration members. *)
Definition same_object (x y : value) : bool :=
  match x, y with
  | VNone, VNone | VMISSING, VMISSING | V_empty, V_empty => true
  | VEnum m, VEnum n =>
      match m, n with
      | chat_input, chat_input | user, user | message, message => true
      | _, _ => false
      end
  | VClass c, VClass d => bool_decide (c = d)
  | VBuiltinFunction f, VBuiltinFunction g => String.eqb f g
  | _, _ => false
  end.

(** [x in {y1, ..., yn}] where [x] is a class object: class objects hash
    and compare by identity. *)
Definition in_set (x : value) (ys : list value) : bool :=
  existsb (same_object x) ys.

(** [issubclass(c, d)] over [pyclass]. *)
Definition issubclass (c d : pyclass) : bool :=
  bool_decide (c = d) || bool_decide (d = CObject)
  || (bool_decide (c = CBool) && bool_decide (d = CInt)).

(** [isinstance(v, cls)]: the second argument has to be a class. *)
Definition isinstance {S} (v cls : value) : M S bool :=
  match cls with
  | VClass c => ret (issubclass (type_of v) c)
  | V_empty => ret false
  | _ => raise (TypeError "isinstance() arg 2 must be a type, a tuple of types, or a union")
  end.

(** [d.get(k, dflt)] on an object that should be a [dict]. *)
Definition get_method {S} (d : value) (k : string) (dflt : value) : M S value :=
  match d with
  | VDict items => ret (default dflt (dict_get items k))
  | _ => raise (AttributeError "get")
  end.

(** The names Python's [builtins] module binds. *)
Definition builtin_functions : list string :=
  [ "abs"; "aiter"; "all"; "anext"; "any"; "ascii"; "bin"; "breakpoint";
    "callable"; "chr"; "compile"; "delattr"; "dir"; "divmod"; "eval";
    "exec"; "format"; "getattr"; "globals"; "hasattr"; "hash"; "hex"; "id";
    "input"; "isinstance"; "issubclass"; "iter"; "len"; "locals"; "max";
    "min"; "next"; "oct"; "open"; "ord"; "pow"; "print"; "repr"; "round";
    "setattr"; "sorted"; "sum"; "vars"; "__import__"; "__build_class__";
    "copyright"; "credits"; "exit"; "help"; "license"; "quit" ].

Definition builtin_classes : list (string * pyclass) :=
  app [ ("bool", CBool); ("classmethod", CClassmethod); ("dict", CDict);
    ("int", CInt); ("object", CObject); ("staticmethod", CStaticmethod);
    ("str", CStr); ("type", CType) ]
  ((λ n, (n, CNamed n)) <$>
  [ "bytearray"; "bytes"; "complex"; "enumerate"; "filter"; "float";
    "frozenset"; "list"; "map"; "memoryview"; "property"; "range";
    "reversed"; "set"; "slice"; "super"; "tuple"; "zip";
    "BaseException"; "BaseExceptionGroup"; "Exception"; "ExceptionGroup";
    "ArithmeticError"; "AssertionError"; "AttributeError";
    "BlockingIOError"; "BrokenPipeError"; "BufferError"; "BytesWarning";
    "ChildProcessError"; "ConnectionAbortedError"; "ConnectionError";
    "ConnectionRefusedError"; "ConnectionResetError"; "DeprecationWarning";
    "EOFError"; "EncodingWarning"; "EnvironmentError"; "FileExistsError";
    "FileNotFoundError"; "FloatingPointError"; "FutureWarning";
    "GeneratorExit"; "IOError"; "ImportError"; "ImportWarning";
    "IndentationError"; "IndexError"; "InterruptedError";
    "IsADirectoryError"; "KeyError"; "KeyboardInterrupt"; "LookupError";
    "MemoryError"; "ModuleNotFoundError"; "NameError";
    "NotADirectoryError"; "NotImplementedError"; "OSError";
    "OverflowError"; "PendingDeprecationWarning"; "PermissionError";
    "ProcessLookupError"; "RecursionError"; "ReferenceError";
    "ResourceWarning"; "RuntimeError"; "RuntimeWarning";
    "StopAsyncIteration"; "StopIteration"; "SyntaxError"; "SyntaxWarning";
    "SystemError"; "SystemExit"; "TabError"; "TimeoutError"; "TypeError";
    "UnboundLocalError"; "UnicodeDecodeError"; "UnicodeEncodeError";
    "UnicodeError"; "UnicodeTranslateError"; "UnicodeWarning";
    "UserWarning"; "ValueError"; "Warning"; "ZeroDivisionError";
    "PythonFinalizationError" ]).

Definition builtin_constants : list (string * value) :=
  [ ("None", VNone); ("True", VBool true); ("False", VBool false);
    ("Ellipsis", VObject "ellipsis" "Ellipsis");
    ("NotImplemented", VObject "NotImplementedType" "NotImplemented");
    ("__debug__", VBool true) ].

Definition builtins : gmap string value :=
  list_to_map
    (((λ n, (n, VBuiltinFunction n)) <$> builtin_functions)
     ++ (prod_map id VClass <$> builtin_classes)
     ++ builtin_constants)%list.

(** A global name read inside a function: the defining module's
    namespace first, then [builtins], else [NameError]. *)
Definition load_name {S} (G : gmap string value) (n : string) : M S value :=
  match G !! n with
  | Some v => ret v
  | None =>
      match builtins !! n with
      | Some v => ret v
      | None => raise (NameError n)
      end
  end.

End Py.
Import Py.

(** ** The module [commands.py] *)

Module Commands.

Local Open Scope py_scope.

(** The classes the module itself creates with [CommandMeta]. *)
Definition Command : pyclass := CCommand "Command".
Definition SlashCommand : pyclass := CCommand "SlashCommand".
Definition UserCommand : pyclass := CCommand "UserCommand".
Definition MessageCommand : pyclass := CCommand "MessageCommand".

(** The module's global namespace once it is imported, in binding order:
    the [__future__] import, the [import] statements, the assignments and
    the class statements.  The names of the two [if TYPE_CHECKING:] import
    blocks are not bound at run time, and the [else] branch binds
    [optionbase]. *)
Definition module_bindings : list (string * value) :=
  [ ("__name__", VStr "discord.ext.class_commands.commands");
    ("__doc__", VStr "The MIT License (MIT)");
    ("__package__", VStr "discord.ext.class_commands");
    ("__loader__", VObject "SourceFileLoader" "__loader__");
    ("__spec__", VObject "ModuleSpec" "__spec__");
    ("__file__", VStr "commands.py");
    ("__cached__", VStr "commands.pyc");
    ("__builtins__", VObject "module" "builtins");
    ("annotations", VObject "__future__._Feature" "annotations");
    ("inspect", VObject "module" "inspect");
    ("traceback", VObject "module" "traceback");
    ("FunctionType", VClass CFunction);
    ("Optional", VObject "typing._SpecialForm" "Optional");
    ("TypeVar", VClass (CNamed "typing.TypeVar"));
    ("Dict", VObject "typing._GenericAlias" "Dict");
    ("Any", VObject "typing._SpecialForm" "Any");
    ("List", VObject "typing._GenericAlias" "List");
    ("TYPE_CHECKING", VBool false);
    ("Union", VObject "typing._SpecialForm" "Union");
    ("Sequence", VObject "typing._GenericAlias" "Sequence");
    ("Generic", VClass (CNamed "typing.Generic"));
    ("AppCommandType", VClass CAppCommandType);
    ("Interaction", VClass (CNamed "discord.Interaction"));
    ("Member", VClass (CNamed "discord.Member"));
    ("Message", VClass (CNamed "discord.Message"));
    ("User", VClass (CNamed "discord.User"));
    ("MISSING", VMISSING);
    ("__all__", VObject "tuple" "__all__");
    ("CommandT", VObject "typing.TypeVar" "CommandT");
    ("_empty", V_empty);
    ("optionbase", VClass CObject);
    ("Option", VClass COption);
    ("ParameterData", VClass CParameterData);
    ("CommandMeta", VClass CCommandMeta);
    ("Command", VClass Command);
    ("SlashCommand", VClass SlashCommand);
    ("UserCommand", VClass UserCommand);
    ("MessageCommand", VClass MessageCommand) ].

Definition module_globals : gmap string value := list_to_map module_bindings.

(** *** [class Option] *)

(** [Option.__init__(default, name, description, *, autocomplete)] stores
    its four arguments as they are. *)
Definition Option (default name description : value) (autocomplete : bool)
  : value :=
  VOption default name description autocomplete.

(** Attribute reads [v.default], [v.description], [v.name],
    [v.autocomplete]: the slots of an [Option]. *)
Definition getattr {S} (v : value) (attr : string) : M S value :=
  match v with
  | VOption default name description autocomplete =>
      if String.eqb attr "default" then ret default
      else if String.eqb attr "description" then ret description
      else if String.eqb attr "name" then ret name
      else if String.eqb attr "autocomplete" then ret (VBool autocomplete)
      else raise (AttributeError attr)
  | _ => raise (AttributeError attr)
  end.

(** *** [class ParameterData(inspect.Parameter)] *)

Inductive ParameterKind :=
| POSITIONAL_ONLY | POSITIONAL_OR_KEYWORD | VAR_POSITIONAL
| KEYWORD_ONLY | VAR_KEYWORD.

Record ParameterData := {
  param_name : string;
  param_kind : ParameterKind;
  param_default : value;
  param_annotation : value;
}.

(** The store of [CommandMeta.__new__]: the three mutable objects it
    builds. *)
Record locals := {
  arguments : list ParameterData;
  descriptions : gmap string value;
  renames : gmap string value;
}.

Definition fresh_locals : locals :=
  {| arguments := []; descriptions := ∅; renames := ∅ |}.

Definition append_argument (p : ParameterData) (l : locals) : locals :=
  {| arguments := arguments l ++ [p];
     descriptions := descriptions l; renames := renames l |}.

Definition set_description (k : string) (v : value) (l : locals) : locals :=
  {| arguments := arguments l;
     descriptions := <[k := v]> (descriptions l); renames := renames l |}.

Definition set_rename (k : string) (v : value) (l : locals) : locals :=
  {| arguments := arguments l;
     descriptions := descriptions l; renames := <[k := v]> (renames l) |}.

(** The class object that [super().__new__(cls, classname, bases, attrs)]
    returns: the class body's namespace and the entries the metaclass has
    stored into it.  The two maps are stored only when they are not empty.
    The call is the interpreter's [type.__new__], taken to return. *)
Record CommandClass := {
  cls_name : string;
  cls_bases : list pyclass;
  cls_attrs : list (string * value);
  __discord_app_commands_params__ : list ParameterData;
  __discord_app_commands_param_rename__ : option (gmap string value);
  __discord_app_commands_param_description__ : option (gmap string value);
}.

(** [TypeError('Context menu commands must take exactly one argument')]. *)
Definition arity_error : exn :=
  TypeError "Context menu commands must take exactly one argument".

(** The list object bound to [arguments], as it sits in [attrs]. *)
Definition arguments_object : value := VObject "list" "arguments".

(** The test that makes the loop [continue]. *)
Definition skipped (k : string) (v : value) : bool :=
  String.prefix "_" k
  || String.eqb k "interaction"
  || in_set (VClass (type_of v))
       [VClass CFunction; VClass CClassmethod; VClass CStaticmethod].

(** Truth value of a [dict]. *)
Definition nonempty (m : gmap string value) : bool :=
  negb (Nat.eqb (size m) 0).

Section CommandMeta.

(** [inspect.Parameter.__init__] rejects a name that is a keyword or not
    an identifier; the test belongs to the standard library. *)
Variable valid_parameter_name : string → bool.

(** [ParameterData.__init__(name, default, annotation)]. *)
Definition ParameterData_init {S} (name : string) (default annotation : value)
  : M S ParameterData :=
  if valid_parameter_name name then
    ret {| param_name := name;
           param_kind := POSITIONAL_OR_KEYWORD;
           param_default := if is_MISSING default then V_empty else default;
           param_annotation :=
             if is_MISSING annotation then V_empty else annotation |}
  else raise (ValueError ("'" ++ name ++ "' is not a valid parameter name")).

Variable G : gmap string value.

(** One round of [for k, v in attrs.items()]. *)
Definition visit (annotations : value) (item : string * value)
  : M locals unit :=
  let '(k, v) := item in
  if skipped k v then ret tt
  else
    annotation <- get_method annotations k (VStr "str") ;;
    parameter <- load_name G "Parameter" ;;
    is_parameter <- isinstance v parameter ;;
    fields <-
      (if is_parameter then
         default <- getattr v "default" ;;
         description <- getattr v "description" ;;
         name <- getattr v "name" ;;
         ret (default, description, name)
       else if negb (is_MISSING v) then ret (v, VMISSING, VMISSING)
       else ret (VMISSING, VMISSING, VMISSING)) ;;
    let '(default, description, name) := fields in
    p <- ParameterData_init k default annotation ;;
    modify (append_argument p) ;;
    when (negb (is_MISSING description))
      (modify (set_description k description)) ;;
    when (negb (is_MISSING name)) (modify (set_rename k name)).

(** The body of [CommandMeta.__new__(cls, classname, bases, attrs)]. *)
Definition CommandMeta_new_body (classname : string) (bases : list pyclass)
    (attrs : list (string * value)) : M locals CommandClass :=
  let items := dict_set attrs "__discord_app_commands_params__" arguments_object in
  let annotations := default (VDict []) (dict_get items "__annotations__") in
  for_each items (visit annotations) ;;
  type <- load_name G "type" ;;
  count <- gets (λ l, length (arguments l)) ;;
  when (in_set type [VEnum user; VEnum message] && bool_decide (1 < count))
    (raise arity_error) ;;
  l <- gets id ;;
  ret {| cls_name := classname;
         cls_bases := bases;
         cls_attrs := attrs;
         __discord_app_commands_params__ := arguments l;
         __discord_app_commands_param_rename__ :=
           if nonempty (renames l) then Some (renames l) else None;
         __discord_app_commands_param_description__ :=
           if nonempty (descriptions l) then Some (descriptions l) else None |}.

(** A call of the metaclass: the store it leaves and what it returns or
    raises. *)
Definition CommandMeta_new (classname : string) (bases : list pyclass)
    (attrs : list (string * value)) : locals * outcome CommandClass :=
  CommandMeta_new_body classname bases attrs fresh_locals.

End CommandMeta.

(** *** [Command.send] *)

(** The arguments of [send]; each is [None], [False] or what the caller
    has passed. *)
Record send_arguments := {
  content : value;
  tts : value;
  embed : value;
  embeds : value;
  file : value;
  files : value;
  nonce : value;
  allowed_mentions : value;
  view : value;
  suppress_embeds : value;
  ephemeral : value;
}.

(** The awaited calls into the host library, with their keyword
    arguments in the order they are written. *)
Inductive request :=
| channel_send (kwargs : list (string * value))
| followup_send (kwargs : list (string * value))
| response_send_message (kwargs : list (string * value))
| original_message.

(** What [send] uses of [self.interaction].  [W] is the state of the host:
    the interaction, the clock and the network.  [is_expired] is
    [interaction.is_expired()], [response_is_done] is
    [interaction.response.is_done()], and [await r] performs [r], which
    returns an object or raises. *)
Class Interaction (W : Type) := {
  is_expired : W → bool;
  response_is_done : W → bool;
  await : request → M W value;
}.

(** [MISSING if x is None else x]. *)
Definition MISSING_if_None (x : value) : value :=
  match x with VNone => VMISSING | _ => x end.

Definition channel_kwargs (a : send_arguments) : list (string * value) :=
  [ ("content", content a);
    ("tts", tts a);
    ("embed", embed a);
    ("embeds", embeds a);
    ("file", file a);
    ("files", files a);
    ("nonce", nonce a);
    ("allowed_mentions", allowed_mentions a);
    ("view", view a);
    ("suppress_embeds", suppress_embeds a) ].

Definition kwargs (a : send_arguments) : list (string * value) :=
  [ ("content", content a);
    ("tts", tts a);
    ("embed", MISSING_if_None (embed a));
    ("embeds", MISSING_if_None (embeds a));
    ("file", MISSING_if_None (file a));
    ("files", MISSING_if_None (files a));
    ("allowed_mentions", MISSING_if_None (allowed_mentions a));
    ("view", MISSING_if_None (view a));
    ("suppress_embeds", suppress_embeds a);
    ("ephemeral", ephemeral a) ].

(** [async def send(self, content=None, *, ...)]. *)
Definition send `{Interaction W} (a : send_arguments) : M W value :=
  expired <- gets is_expired ;;
  if expired then await (channel_send (channel_kwargs a))
  else
    done <- gets response_is_done ;;
    if done then await (followup_send (kwargs a ++ [("wait", VBool true)]))
    else
      await (response_send_message (kwargs a)) ;;
      await original_message.

(** The same call with another value for [ephemeral]. *)
Definition with_ephemeral (e : value) (a : send_arguments) : send_arguments :=
  {| content := content a; tts := tts a; embed := embed a;
     embeds := embeds a; file := file a; files := files a; nonce := nonce a;
     allowed_mentions := allowed_mentions a; view := view a;
     suppress_embeds := suppress_embeds a; ephemeral := e |}.

(** *** A host that records the requests it receives *)

Record recorder := {
  expired : bool;
  responded : bool;
  received : list request;
}.

Definition record (r : request) (w : recorder) : recorder :=
  {| expired := expired w;
     responded :=
       match r with response_send_message _ => true | _ => responded w end;
     received := received w ++ [r] |}.

Definition reply (r : request) : value :=
  match r with
  | channel_send _ => VObject "Message" "sent to the channel"
  | followup_send _ => VObject "WebhookMessage" "sent as a followup"
  | response_send_message _ => VNone
  | original_message => VObject "InteractionMessage" "original response"
  end.

#[global] Instance recorder_interaction : Interaction recorder := {|
  is_expired := expired;
  response_is_done := responded;
  await r := λ w, (record r w, Ok (reply r));
|}.

(** A call [send("hello", ephemeral=True)]. *)
Definition hello : send_arguments :=
  {| content := VStr "hello"; tts := VBool false; embed := VNone;
     embeds := VNone; file := VNone; files := VNone; nonce := VNone;
     allowed_mentions := VNone; view := VNone;
     suppress_embeds := VBool false; ephemeral := VBool true |}.

(** A stand-in for the standard library's test of parameter names. *)
Definition any_name : string → bool := λ _, true.

End Commands.

(** ** Class bodies used as examples *)

Module Examples.

Import Commands.

(** The namespaces of the four class statements of the module, as
    [__build_class__] hands them to the metaclass. *)
Definition Command_body : list (string * value) :=
  [ ("__module__", VStr "discord.ext.class_commands.commands");
    ("__qualname__", VStr "Command");
    ("__annotations__", VDict [("interaction", VStr "Interaction")]);
    ("__doc__", VStr "Represents a class-based application command.");
    ("callback", VFunction "Command.callback");
    ("on_error", VFunction "Command.on_error");
    ("send", VFunction "Command.send");
    ("defer", VFunction "Command.defer") ].

Definition SlashCommand_body : list (string * value) :=
  [ ("__module__", VStr "discord.ext.class_commands.commands");
    ("__qualname__", VStr "SlashCommand");
    ("__doc__", VStr "Represents a class-based slash command.");
    ("__discord_app_commands_type__", VEnum chat_input);
    ("autocomplete", VFunction "SlashCommand.autocomplete");
    ("__orig_bases__", VObject "tuple" "__orig_bases__") ].

Definition UserCommand_body : list (string * value) :=
  [ ("__module__", VStr "discord.ext.class_commands.commands");
    ("__qualname__", VStr "UserCommand");
    ("__annotations__", VDict [("target", VStr "Union[Member, User]")]);
    ("__doc__", VStr "Represents a class-based user command.");
    ("__discord_app_commands_type__", VEnum user);
    ("__orig_bases__", VObject "tuple" "__orig_bases__") ].

Definition MessageCommand_body : list (string * value) :=
  [ ("__module__", VStr "discord.ext.class_commands.commands");
    ("__qualname__", VStr "MessageCommand");
    ("__annotations__", VDict [("target", VStr "Message")]);
    ("__doc__", VStr "Represents a class-based message command.");
    ("__discord_app_commands_type__", VEnum message);
    ("__orig_bases__", VObject "tuple" "__orig_bases__") ].

(** [class Report(UserCommand): reason = "spam"; silent = False] *)
Definition Report_body : list (string * value) :=
  [ ("__module__", VStr "bot");
    ("__qualname__", VStr "Report");
    ("reason", VStr "spam");
    ("silent", VBool false) ].

(** [class Pin(MessageCommand): note = "pinned"] *)
Definition Pin_body : list (string * value) :=
  [ ("__module__", VStr "bot");
    ("__qualname__", VStr "Pin");
    ("note", VStr "pinned") ].

(** [class Ban(SlashCommand):
       days = Option(7, "delete_days", "Days of messages to delete")] *)
Definition Ban_body : list (string * value) :=
  [ ("__module__", VStr "bot");
    ("__qualname__", VStr "Ban");
    ("days", Option (VInt 7) (VStr "delete_days")
               (VStr "Days of messages to delete") false) ].

(** [class Echo(SlashCommand): times = 3] *)
Definition Echo_body : list (string * value) :=
  [ ("__module__", VStr "bot");
    ("__qualname__", VStr "Echo");
    ("times", VInt 3) ].

(** [class Greet(SlashCommand):
       who: Member = None
       greeting = "hello"
       async def callback(self): ...
       loud: bool = False] *)
Definition Greet_body : list (string * value) :=
  [ ("__module__", VStr "bot");
    ("__qualname__", VStr "Greet");
    ("__annotations__", VDict [("who", VStr "Member"); ("loud", VStr "bool")]);
    ("who", VNone);
    ("greeting", VStr "hello");
    ("callback", VFunction "Greet.callback");
    ("loud", VBool false) ].

(** [class Whois(SlashCommand):
       member: Member
       async def callback(self): ...] *)
Definition Whois_body : list (string * value) :=
  [ ("__module__", VStr "bot");
    ("__qualname__", VStr "Whois");
    ("__annotations__", VDict [("member", VStr "Member")]);
    ("callback", VFunction "Whois.callback") ].

(** The module's namespace if the name [Parameter] were bound to the
    [Option] class. *)
Definition globals_with_Parameter : gmap string value :=
  <["Parameter" := VClass COption]> module_globals.

End Examples.

(** ** Vocabulary of the specification *)

Module Spec.

Import Commands.

(** An attribute of a class body that the specification calls eligible:
    not private-prefixed, not named [interaction], and not a function, a
    [classmethod] or a [staticmethod]. *)
Definition eligible (k : string) (v : value) : Prop :=
  String.prefix "_" k = false
  ∧ k ≠ "interaction"
  ∧ type_of v ∉ [CFunction; CClassmethod; CStaticmethod].

(** The class body keeps a dictionary under [__annotations__], or nothing,
    as the language's data model has it. *)
Definition annotations_are_dict (attrs : list (string * value)) : Prop :=
  match dict_get attrs "__annotations__" with
  | None | Some (VDict _) => True
  | Some _ => False
  end.

(** The annotations of a class body. *)
Definition annotations_of (attrs : list (string * value))
  : list (string * value) :=
  match dict_get attrs "__annotations__" with
  | Some (VDict anns) => anns
  | _ => []
  end.

(** An attribute declared by an annotation alone: it has an entry in
    [__annotations__] and none in the namespace. *)
Definition annotation_only (attrs : list (string * value)) (k : string) : Prop :=
  k ∈ keys (annotations_of attrs) ∧ k ∉ keys attrs.

(** What the specification has the loop take from the value of an
    attribute: default, description and name, from an [Option] or from a
    bare value. *)
Definition declared (v : value) : value * value * value :=
  match v with
  | VOption default name description _ => (default, description, name)
  | VMISSING => (VMISSING, VMISSING, VMISSING)
  | _ => (v, VMISSING, VMISSING)
  end.

(** The parameter descriptor the specification gives an attribute: its
    name, its default, and its annotation or the string ['str']. *)
Definition descriptor (anns : list (string * value)) (k : string) (v : value)
  : ParameterData :=
  let annotation := default (VStr "str") (dict_get anns k) in
  {| param_name := k;
     param_kind := POSITIONAL_OR_KEYWORD;
     param_default :=
       if is_MISSING (declared v).1.1 then V_empty else (declared v).1.1;
     param_annotation :=
       if is_MISSING annotation then V_empty else annotation |}.

(** What the specification has one attribute add to the metadata. *)
Definition record_attribute (anns : list (string * value)) (l : locals)
    (item : string * value) : locals :=
  let '(k, v) := item in
  if skipped k v then l
  else
    let '(_, description, name) := declared v in
    let l1 := append_argument (descriptor anns k v) l in
    let l2 := if is_MISSING description then l1
              else set_description k description l1 in
    if is_MISSING name then l2 else set_rename k name l2.

(** The store of [__new__] holds something for the attribute [k]: a
    parameter descriptor of that name, a rename or a description. *)
Definition recorded (l : locals) (k : string) : Prop :=
  k ∈ param_name <$> arguments l
  ∨ is_Some (renames l !! k)
  ∨ is_Some (descriptions l !! k).

(** The same of the class that comes out. *)
Definition class_mentions (c : CommandClass) (k : string) : Prop :=
  k ∈ param_name <$> __discord_app_commands_params__ c
  ∨ is_Some (__discord_app_commands_param_rename__ c ≫= (.!! k))
  ∨ is_Some (__discord_app_commands_param_description__ c ≫= (.!! k)).

End Spec.

(** ** Further vocabulary: well-formed metadata *)

Module Metadata.

Import Commands Spec Examples.

(** A parameter descriptor as [ParameterData.__init__] leaves it: keyword
    or positional, under a name the standard library accepts, and with
    [inspect.Parameter.empty] where [MISSING] was passed. *)
Definition well_formed (valid : string → bool) (p : ParameterData) : Prop :=
  param_kind p = POSITIONAL_OR_KEYWORD
  ∧ valid (param_name p) = true
  ∧ param_default p ≠ VMISSING
  ∧ param_annotation p ≠ VMISSING.

(** No entry of a map is the [MISSING] sentinel. *)
Definition no_MISSING (m : gmap string value) : Prop :=
  ∀ k v, m !! k = Some v → v ≠ VMISSING.

(** The store of [__new__] holds well-formed descriptors and maps free
    of [MISSING]. *)
Definition store_well_formed (valid : string → bool) (l : locals) : Prop :=
  Forall (well_formed valid) (arguments l)
  ∧ no_MISSING (renames l)
  ∧ no_MISSING (descriptions l).

(** The module's namespace as it is, or with the one name [Parameter]
    bound to the [Option] class besides. *)
Definition known_globals (G : gmap string value) : Prop :=
  G = module_globals ∨ G = globals_with_Parameter.

(** A class body as a class statement builds it, which does not write
    the two map attributes of the metaclass itself: one entry per name,
    names that are neither empty nor begin with a dot, a dictionary
    under [__annotations__] if anything. *)
Definition ordinary_body (attrs : list (string * value)) : Prop :=
  NoDup (keys attrs)
  ∧ Forall (λ k, k ≠ "" ∧ String.prefix "." k = false) (keys attrs)
  ∧ annotations_are_dict attrs
  ∧ ("__discord_app_commands_param_rename__" ∉ keys attrs)
  ∧ ("__discord_app_commands_param_description__" ∉ keys attrs).

(** [None], a [bool], an [int] or a [str]: an object with no [get]
    method, and no instance of [Option]. *)
Definition primitive (v : value) : Prop :=
  match v with
  | VNone | VBool _ | VInt _ | VStr _ => True
  | _ => False
  end.

End Metadata.

(** ** [Command.defer] and more of [Command.send] *)

Module Replies.

Import Commands.
Local Open Scope py_scope.

(** The awaited call [interaction.response.defer] with its keyword arguments of the host
    library. *)
Class Deferral (W : Type) := {
  response_defer : list (string * value) → M W value;
}.

(** [async def defer(self, *, ephemeral=False)]: the awaited call, whose
    result is dropped; the method returns [None]. *)
Definition defer `{Deferral W} (ephemeral : value) : M W value :=
  response_defer [("ephemeral", ephemeral)] ;;
  ret VNone.

(** The recording host acknowledges a deferral. *)
#[global] Instance recorder_deferral : Deferral recorder := {|
  response_defer _ := λ w,
    ({| expired := expired w; responded := true; received := received w |},
     Ok VNone);
|}.

(** The same call of [send] with another value for [nonce]. *)
Definition with_nonce (n : value) (a : send_arguments) : send_arguments :=
  {| content := content a; tts := tts a; embed := embed a;
     embeds := embeds a; file := file a; files := files a; nonce := n;
     allowed_mentions := allowed_mentions a; view := view a;
     suppress_embeds := suppress_embeds a; ephemeral := ephemeral a |}.

(** The request that answers a live interaction after its first
    response: the channel once it is expired, the follow-up otherwise. *)
Definition later_request `{Interaction W} (a : send_arguments) (w : W)
  : request :=
  if is_expired w then channel_send (channel_kwargs a)
  else followup_send (kwargs a ++ [("wait", VBool true)]).

(** A call [send("again", nonce=7)]. *)
Definition again : send_arguments :=
  {| content := VStr "again"; tts := VBool false; embed := VNone;
     embeds := VNone; file := VNone; files := VNone; nonce := VInt 7;
     allowed_mentions := VNone; view := VNone;
     suppress_embeds := VBool false; ephemeral := VBool false |}.

(** A live interaction with no response yet, on the recording host. *)
Definition fresh_interaction : recorder :=
  {| expired := false; responded := false; received := [] |}.

End Replies.

Module MoreExamples.

Import Commands.

(** [class Odd(SlashCommand): __annotations__ = None; size = 1] *)
Definition Odd_body : list (string * value) :=
  [ ("__module__", VStr "bot");
    ("__qualname__", VStr "Odd");
    ("__annotations__", VNone);
    ("size", VInt 1) ].

(** [class Tag(SlashCommand):
       name: str = Option()
       text = MISSING] *)
Definition Tag_body : list (string * value) :=
  [ ("__module__", VStr "bot");
    ("__qualname__", VStr "Tag");
    ("__annotations__", VDict [("name", VStr "str")]);
    ("name", Option VMISSING VMISSING VMISSING false);
    ("text", VMISSING) ].

(** A call [send(embed=card)] with no content. *)
Definition look : send_arguments :=
  {| content := VNone; tts := VBool false;
     embed := VObject "Embed" "card"; embeds := VNone; file := VNone;
     files := VNone; nonce := VNone; allowed_mentions := VNone;
     view := VNone; suppress_embeds := VBool false;
     ephemeral := VBool false |}.

End MoreExamples.

(** * Properties *)

Import Commands Spec Examples.
Local Open Scope py_scope.

(** ** Name resolution *)

(** The module binds no [Parameter], and neither does [builtins]. *)
Lemma Parameter_unbound {S} (s : S) :
  load_name module_globals "Parameter" s = (s, Raise (NameError "Parameter")).
Proof. reflexivity. Qed.

(** Inside [__new__] the name [type] is the builtin class: the method has
    no local of that name and the module binds none. *)
Lemma type_is_builtin {S} (s : S) :
  load_name module_globals "type" s = (s, Ok (VClass CType)).
Proof. reflexivity. Qed.

(** The other global names that [__new__] reads denote the objects the
    definitions above use for them. *)
Lemma names_resolve {S} (s : S) :
  load_name module_globals "MISSING" s = (s, Ok VMISSING)
  ∧ load_name module_globals "_empty" s = (s, Ok V_empty)
  ∧ load_name module_globals "FunctionType" s = (s, Ok (VClass CFunction))
  ∧ load_name module_globals "classmethod" s = (s, Ok (VClass CClassmethod))
  ∧ load_name module_globals "staticmethod" s = (s, Ok (VClass CStaticmethod))
  ∧ load_name module_globals "AppCommandType" s = (s, Ok (VClass CAppCommandType))
  ∧ load_name module_globals "ParameterData" s = (s, Ok (VClass CParameterData))
  ∧ load_name module_globals "isinstance" s = (s, Ok (VBuiltinFunction "isinstance"))
  ∧ load_name module_globals "len" s = (s, Ok (VBuiltinFunction "len"))
  ∧ load_name module_globals "TypeError" s = (s, Ok (VClass (CNamed "TypeError"))).
Proof. repeat split; reflexivity. Qed.

(** The builtin [type] is no member of [{AppCommandType.user,
    AppCommandType.message}]. *)
Lemma type_not_context_menu :
  in_set (VClass CType) [VEnum user; VEnum message] = false.
Proof. reflexivity. Qed.

(** ** Loops *)

Lemma for_each_cons {S A} (body : A → M S unit) x xs s :
  for_each (x :: xs) body s
  = match body x s with
    | (s', Ok _) => for_each xs body s'
    | (s', Raise e) => (s', Raise e)
    end.
Proof. reflexivity. Qed.

Lemma bind_inv {S A B} (m : M S A) (k : A → M S B) s s' o :
  bind m k s = (s', o) →
  (∃ s1 a, m s = (s1, Ok a) ∧ k a s1 = (s', o))
  ∨ (∃ e, m s = (s', Raise e) ∧ o = Raise e).
Proof.
  unfold bind. destruct (m s) as [s1 [a|e]].
  - intros Hk. left. eauto.
  - intros [= <- <-]. right. eauto.
Qed.

(** ** Dictionaries *)

Lemma dict_get_set_ne {A} (d : list (string * A)) k k' v :
  k ≠ k' → dict_get (dict_set d k' v) k = dict_get d k.
Proof.
  intros Hne. induction d as [|[k0 v0] d IH]; simpl.
  - destruct (String.eqb_spec k' k); congruence.
  - destruct (String.eqb_spec k0 k').
    + subst k0. simpl. destruct (String.eqb_spec k' k); congruence.
    + simpl. destruct (String.eqb_spec k0 k); auto.
Qed.

Lemma elem_of_dict_set_inv {A} (d : list (string * A)) k k' v v' :
  (k, v) ∈ dict_set d k' v' → (k = k' ∧ v = v') ∨ (k, v) ∈ d.
Proof.
  induction d as [|[k0 v0] d IH]; simpl; intros Hin.
  - apply list_elem_of_singleton in Hin. injection Hin as -> ->. auto.
  - destruct (String.eqb_spec k0 k').
    + apply elem_of_cons in Hin as [[= -> ->] | Hin]; [auto |].
      right. by right.
    + apply elem_of_cons in Hin as [-> | Hin]; [right; left |].
      destruct (IH Hin); [auto | right; by right].
Qed.

(** ** The skipping test *)

Lemma skipped_false_iff_eligible k v : skipped k v = false ↔ eligible k v.
Proof.
  unfold skipped, eligible, in_set. simpl.
  rewrite !orb_false_iff, !bool_decide_eq_false, String.eqb_neq.
  rewrite !elem_of_cons, elem_of_nil. intuition congruence.
Qed.

Lemma private_skipped k v : String.prefix "_" k = true → skipped k v = true.
Proof. intros H. unfold skipped. by rewrite H. Qed.

(** ** The metaclass on the module as it is *)

Section Metaclass.

Variable valid : string → bool.

(** A skipped attribute leaves the store as it is, whatever the names are
    bound to. *)
Lemma visit_skipped G a k v l :
  skipped k v = true → visit valid G a (k, v) l = (l, Ok tt).
Proof. intros H. unfold visit. by rewrite H. Qed.

(** The first attribute that is not skipped stops the loop: the read of
    [Parameter] raises before anything is stored. *)
Lemma visit_unbound anns k v l :
  skipped k v = false →
  visit valid module_globals (VDict anns) (k, v) l
  = (l, Raise (NameError "Parameter")).
Proof.
  intros H. unfold visit. rewrite H.
  unfold bind, get_method, ret. by rewrite Parameter_unbound.
Qed.

(** Whatever [__annotations__] holds, one round of the loop stores
    nothing. *)
Lemma visit_store_unbound a k v l :
  (visit valid module_globals a (k, v) l).1 = l.
Proof.
  unfold visit. destruct (skipped k v); [done |].
  unfold bind, get_method.
  destruct a; done.
Qed.

Lemma loop_store_unbound a items l :
  (for_each items (visit valid module_globals a) l).1 = l.
Proof.
  revert l. induction items as [|[k v] items IH]; intros l; [done |].
  rewrite for_each_cons.
  pose proof (visit_store_unbound a k v l) as Hv.
  destruct (visit valid module_globals a (k, v) l) as [l' [[]|e]];
    simpl in Hv; subst l'; [apply IH | done].
Qed.

Lemma loop_unbound anns items l :
  for_each items (visit valid module_globals (VDict anns)) l
  = if forallb (λ item, skipped item.1 item.2) items
    then (l, Ok tt) else (l, Raise (NameError "Parameter")).
Proof.
  induction items as [|[k v] items IH]; [done |].
  rewrite for_each_cons. cbn [forallb fst snd].
  destruct (skipped k v) eqn:Hs; cbn [andb].
  - by rewrite visit_skipped.
  - by rewrite visit_unbound.
Qed.

Lemma forallb_skipped_dict_set attrs k v :
  String.prefix "_" k = true →
  forallb (λ item, skipped item.1 item.2) (dict_set attrs k v)
  = forallb (λ item : string * value, skipped item.1 item.2) attrs.
Proof.
  intros Hk. induction attrs as [|[k0 v0] attrs IH]; simpl.
  - by rewrite private_skipped.
  - destruct (String.eqb_spec k0 k); simpl.
    + subst k0. by rewrite !private_skipped.
    + by rewrite IH.
Qed.

Lemma annotations_of_items attrs :
  annotations_are_dict attrs →
  default (VDict [])
    (dict_get (dict_set attrs "__discord_app_commands_params__" arguments_object)
       "__annotations__")
  = VDict (annotations_of attrs).
Proof.
  unfold annotations_are_dict, annotations_of.
  rewrite dict_get_set_ne by done.
  destruct (dict_get attrs "__annotations__") as [[]|]; simpl; by intros.
Qed.

(** What [CommandMeta.__new__] does on the module as it is: a class body
    all of whose attributes are skipped becomes a class with no
    parameters, and any other body raises [NameError]. *)
Lemma CommandMeta_new_unbound classname bases attrs :
  annotations_are_dict attrs →
  CommandMeta_new valid module_globals classname bases attrs
  = if forallb (λ item, skipped item.1 item.2) attrs
    then (fresh_locals,
          Ok {| cls_name := classname; cls_bases := bases; cls_attrs := attrs;
                __discord_app_commands_params__ := [];
                __discord_app_commands_param_rename__ := None;
                __discord_app_commands_param_description__ := None |})
    else (fresh_locals, Raise (NameError "Parameter")).
Proof.
  intros Hwf. unfold CommandMeta_new, CommandMeta_new_body.
  rewrite (annotations_of_items _ Hwf).
  unfold bind at 1. rewrite loop_unbound, forallb_skipped_dict_set by done.
  by destruct (forallb _ attrs).
Qed.

(** The store of [__new__] never changes: on no class body does the loop
    reach an assignment to [default], [description] or [name]. *)
Lemma CommandMeta_new_store_unbound classname bases attrs :
  (CommandMeta_new valid module_globals classname bases attrs).1 = fresh_locals.
Proof.
  unfold CommandMeta_new, CommandMeta_new_body.
  unfold bind at 1.
  match goal with |- context [for_each ?i ?b ?l] =>
    pose proof (loop_store_unbound
      (default (VDict []) (dict_get i "__annotations__")) i l) as Hl;
    destruct (for_each i b l) as [l' [[]|e]] end;
    simpl in Hl; subst; done.
Qed.

End Metaclass.

(** ** Class bodies with no eligible attribute *)

Section NoEligible.

Variable valid : string → bool.
Variable G : gmap string value.
Hypothesis type_not_shadowed : G !! "type" = None.

Lemma loop_all_skipped a items l :
  forallb (λ item, skipped item.1 item.2) items = true →
  for_each items (visit valid G a) l = (l, Ok tt).
Proof.
  induction items as [|[k v] items IH]; [done |].
  cbn [forallb fst snd]. intros [Hs Hall]%andb_true_iff.
  rewrite for_each_cons, visit_skipped by done. auto.
Qed.

(** A class body all of whose attributes are skipped becomes a class with
    an empty parameter list and no maps, whatever else the module binds. *)
Lemma CommandMeta_new_no_eligible classname bases attrs :
  forallb (λ item, skipped item.1 item.2) attrs = true →
  CommandMeta_new valid G classname bases attrs
  = (fresh_locals,
     Ok {| cls_name := classname; cls_bases := bases; cls_attrs := attrs;
           __discord_app_commands_params__ := [];
           __discord_app_commands_param_rename__ := None;
           __discord_app_commands_param_description__ := None |}).
Proof.
  intros Hall. unfold CommandMeta_new, CommandMeta_new_body.
  unfold bind at 1.
  rewrite loop_all_skipped by (by rewrite forallb_skipped_dict_set).
  unfold bind at 1. unfold load_name. rewrite type_not_shadowed.
  change (builtins !! "type") with (Some (VClass CType)).
  unfold ret at 1. by rewrite type_not_context_menu.
Qed.

(** The four class statements of the module itself go through: none of
    their attributes is eligible, so importing the module raises
    nothing. *)
Lemma module_classes_created :
  (CommandMeta_new valid G "Command" [] Command_body).2
  = Ok {| cls_name := "Command"; cls_bases := []; cls_attrs := Command_body;
          __discord_app_commands_params__ := [];
          __discord_app_commands_param_rename__ := None;
          __discord_app_commands_param_description__ := None |}
  ∧ (CommandMeta_new valid G "SlashCommand"
       [Command; CNamed "typing.Generic"] SlashCommand_body).2
    = Ok {| cls_name := "SlashCommand";
            cls_bases := [Command; CNamed "typing.Generic"];
            cls_attrs := SlashCommand_body;
            __discord_app_commands_params__ := [];
            __discord_app_commands_param_rename__ := None;
            __discord_app_commands_param_description__ := None |}
  ∧ (CommandMeta_new valid G "UserCommand"
       [Command; CNamed "typing.Generic"] UserCommand_body).2
    = Ok {| cls_name := "UserCommand";
            cls_bases := [Command; CNamed "typing.Generic"];
            cls_attrs := UserCommand_body;
            __discord_app_commands_params__ := [];
            __discord_app_commands_param_rename__ := None;
            __discord_app_commands_param_description__ := None |}
  ∧ (CommandMeta_new valid G "MessageCommand"
       [Command; CNamed "typing.Generic"] MessageCommand_body).2
    = Ok {| cls_name := "MessageCommand";
            cls_bases := [Command; CNamed "typing.Generic"];
            cls_attrs := MessageCommand_body;
            __discord_app_commands_params__ := [];
            __discord_app_commands_param_rename__ := None;
            __discord_app_commands_param_description__ := None |}.
Proof. repeat split; by rewrite CommandMeta_new_no_eligible. Qed.

End NoEligible.

(** ** Class bodies with an eligible attribute *)

(** C4, amended.  A class body that keeps a dictionary under
    [__annotations__], or nothing, and assigns a value to at least one
    eligible attribute (not private-prefixed, not named [interaction],
    not a function, classmethod or staticmethod) makes class construction
    raise [NameError] for the name [Parameter], with no parameter
    descriptor, description or rename recorded; and on no class body at
    all does the store of [__new__] change, so the assignments of the
    [Option] branch and of the bare-default branch are never reached. *)
Theorem eligible_attribute_raises_NameError valid classname bases attrs k v :
  annotations_are_dict attrs →
  (k, v) ∈ attrs →
  eligible k v →
  CommandMeta_new valid module_globals classname bases attrs
  = (fresh_locals, Raise (NameError "Parameter"))
  ∧ ∀ body,
      (CommandMeta_new valid module_globals classname bases body).1
      = fresh_locals.
Proof.
  intros Hwf Hin Hel. split; [| apply CommandMeta_new_store_unbound].
  rewrite CommandMeta_new_unbound by done.
  destruct (forallb _ attrs) eqn:Hall; [| done].
  rewrite forallb_forall in Hall.
  apply list_elem_of_In, Hall in Hin. simpl in Hin.
  apply skipped_false_iff_eligible in Hel. congruence.
Qed.

Lemma eligible_attribute_raises_NameError_witness :
  annotations_are_dict Greet_body
  ∧ ("greeting", VStr "hello") ∈ Greet_body
  ∧ eligible "greeting" (VStr "hello")
  ∧ CommandMeta_new any_name module_globals "Greet" [SlashCommand] Greet_body
    = (fresh_locals, Raise (NameError "Parameter")).
Proof.
  assert (Hwf : annotations_are_dict Greet_body) by exact I.
  assert (Hin : ("greeting", VStr "hello") ∈ Greet_body)
    by (apply list_elem_of_In; simpl; tauto).
  assert (Hel : eligible "greeting" (VStr "hello"))
    by (apply skipped_false_iff_eligible; reflexivity).
  exact (conj Hwf (conj Hin (conj Hel (proj1
    (eligible_attribute_raises_NameError any_name "Greet" [SlashCommand]
       Greet_body "greeting" (VStr "hello") Hwf Hin Hel))))).
Defined.

(** C1.  On a user command with two eligible attributes class
    construction raises [NameError], not [TypeError]; and on a message
    command with exactly one eligible attribute it raises [NameError] as
    well, where the specification has it succeed. *)
Theorem context_menu_bodies_raise_NameError valid :
  CommandMeta_new valid module_globals "Report" [UserCommand] Report_body
  = (fresh_locals, Raise (NameError "Parameter"))
  ∧ CommandMeta_new valid module_globals "Pin" [MessageCommand] Pin_body
    = (fresh_locals, Raise (NameError "Parameter")).
Proof. split; reflexivity. Qed.

(** C2.  On a class body whose attribute [days] holds
    [Option(7, "delete_days", "Days of messages to delete")] class
    construction raises [NameError]: no descriptor, rename or description
    is produced. *)
Theorem Option_attribute_raises_NameError valid :
  CommandMeta_new valid module_globals "Ban" [SlashCommand] Ban_body
  = (fresh_locals, Raise (NameError "Parameter")).
Proof. reflexivity. Qed.

(** C3.  On a class body whose attribute [times] holds the bare value [3]
    class construction raises [NameError]: no descriptor with default [3]
    is produced. *)
Theorem bare_value_attribute_raises_NameError valid :
  CommandMeta_new valid module_globals "Echo" [SlashCommand] Echo_body
  = (fresh_locals, Raise (NameError "Parameter")).
Proof. reflexivity. Qed.

(** C5.  On a class body with the eligible attributes [who], [greeting]
    and [loud] class construction raises [NameError]: the class gets no
    parameter list at all. *)
Theorem eligible_attributes_yield_no_parameter_list valid :
  CommandMeta_new valid module_globals "Greet" [SlashCommand] Greet_body
  = (fresh_locals, Raise (NameError "Parameter")).
Proof. reflexivity. Qed.

(** ** [Command.send] *)

Section Send.

Context `{Interaction W}.

(** C7.  When the interaction is expired, [send] is the channel-level
    send alone, and [ephemeral] is not forwarded to it: the keyword is
    absent from the call and its value has no influence on it. *)
Theorem send_expired (a : send_arguments) (w : W) :
  is_expired w = true →
  send a w = await (channel_send (channel_kwargs a)) w
  ∧ ("ephemeral" ∉ keys (channel_kwargs a))
  ∧ (∀ e, send (with_ephemeral e a) w = send a w).
Proof.
  intros He. unfold send, bind, gets. rewrite He.
  split; [done |]. split; [| done].
  unfold keys, channel_kwargs. simpl.
  rewrite !elem_of_cons, elem_of_nil. intros Hin.
  repeat destruct Hin as [Hin | Hin]; first [discriminate | done].
Qed.

(** C8.  When the interaction is not expired and its response is done,
    [send] is the follow-up send alone, called with [wait=True]. *)
Theorem send_responded (a : send_arguments) (w : W) :
  is_expired w = false →
  response_is_done w = true →
  send a w = await (followup_send (kwargs a ++ [("wait", VBool true)])) w
  ∧ dict_get (kwargs a ++ [("wait", VBool true)]) "wait" = Some (VBool true).
Proof.
  intros He Hd. unfold send, bind, gets. rewrite He, Hd. done.
Qed.

(** C9.  When the interaction is not expired and has not responded,
    [send] first awaits the initial interaction response; if that
    returns, [send] is the fetch of the original message from there on and
    returns what the fetch returns; if it raises, so does [send]. *)
Theorem send_initial_response (a : send_arguments) (w : W) :
  is_expired w = false →
  response_is_done w = false →
  match await (response_send_message (kwargs a)) w with
  | (w', Ok _) => send a w = await original_message w'
  | (w', Raise e) => send a w = (w', Raise e)
  end.
Proof.
  intros He Hd. unfold send, bind, gets. rewrite He, Hd.
  by destruct (await (response_send_message (kwargs a)) w) as [w' [r|e]].
Qed.

End Send.

(** On the recording host: the requests received, in order, and the
    object returned. *)
Lemma send_expired_witness :
  is_expired {| expired := true; responded := false; received := [] |} = true
  ∧ send hello {| expired := true; responded := false; received := [] |}
    = ({| expired := true; responded := false;
          received := [channel_send (channel_kwargs hello)] |},
       Ok (VObject "Message" "sent to the channel"))
  ∧ "ephemeral" ∉ keys (channel_kwargs hello).
Proof.
  pose proof (send_expired hello
    {| expired := true; responded := false; received := [] |} eq_refl)
    as (Hsend & Hkw & _).
  exact (conj eq_refl (conj Hsend Hkw)).
Defined.

Lemma send_responded_witness :
  is_expired {| expired := false; responded := true; received := [] |} = false
  ∧ response_is_done {| expired := false; responded := true; received := [] |}
    = true
  ∧ send hello {| expired := false; responded := true; received := [] |}
    = ({| expired := false; responded := true;
          received := [followup_send (kwargs hello ++ [("wait", VBool true)])] |},
       Ok (VObject "WebhookMessage" "sent as a followup")).
Proof.
  pose proof (send_responded hello
    {| expired := false; responded := true; received := [] |} eq_refl eq_refl)
    as (Hsend & _).
  exact (conj eq_refl (conj eq_refl Hsend)).
Defined.

Lemma send_initial_response_witness :
  is_expired {| expired := false; responded := false; received := [] |} = false
  ∧ response_is_done {| expired := false; responded := false; received := [] |}
    = false
  ∧ send hello {| expired := false; responded := false; received := [] |}
    = ({| expired := false; responded := true;
          received := [response_send_message (kwargs hello); original_message] |},
       Ok (VObject "InteractionMessage" "original response")).
Proof.
  pose proof (send_initial_response hello
    {| expired := false; responded := false; received := [] |} eq_refl eq_refl)
    as Hsend.
  exact (conj eq_refl (conj eq_refl Hsend)).
Defined.

(** ** What the loop can record, whatever the names are bound to *)

Section Recording.

Variable valid : string → bool.
Variable G : gmap string value.

Lemma recorded_append p l k :
  recorded (append_argument p l) k → recorded l k ∨ k = param_name p.
Proof.
  unfold recorded, append_argument. simpl.
  rewrite fmap_app, elem_of_app. simpl.
  rewrite list_elem_of_singleton. tauto.
Qed.

Lemma recorded_set_description k0 v l k :
  recorded (set_description k0 v l) k → recorded l k ∨ k = k0.
Proof.
  unfold recorded, set_description. simpl.
  destruct (decide (k0 = k)) as [-> | Hne]; [auto |].
  rewrite lookup_insert_ne by done. tauto.
Qed.

Lemma recorded_set_rename k0 v l k :
  recorded (set_rename k0 v l) k → recorded l k ∨ k = k0.
Proof.
  unfold recorded, set_rename. simpl.
  destruct (decide (k0 = k)) as [-> | Hne]; [auto |].
  rewrite lookup_insert_ne by done. tauto.
Qed.

Lemma ParameterData_init_name {S} name d a (s s' : S) p :
  ParameterData_init valid name d a s = (s', Ok p) →
  s' = s ∧ param_name p = name.
Proof.
  unfold ParameterData_init. destruct (valid name); [| done].
  unfold ret. intros [= <- <-]. done.
Qed.

(** Reads leave the store alone. *)
Lemma get_method_store {S} d k dflt (s s' : S) o :
  get_method d k dflt s = (s', o) → s' = s.
Proof. unfold get_method. destruct d; by intros [= <- <-]. Qed.

Lemma load_name_store {S} G' n (s s' : S) o :
  load_name G' n s = (s', o) → s' = s.
Proof.
  unfold load_name.
  destruct (G' !! n); [by intros [= <- <-] |].
  destruct (builtins !! n); by intros [= <- <-].
Qed.

Lemma isinstance_store {S} v c (s s' : S) o :
  isinstance v c s = (s', o) → s' = s.
Proof. unfold isinstance. destruct c; by intros [= <- <-]. Qed.

Lemma getattr_store {S} v attr (s s' : S) o :
  getattr v attr s = (s', o) → s' = s.
Proof.
  unfold getattr. destruct v; try by intros [= <- <-].
  repeat case_match; by intros [= <- <-].
Qed.

(** The last four statements of a round record under the visited name
    only. *)
Lemma store_parameter_recorded k0 d ds n ann l l' o k :
  (p <- ParameterData_init valid k0 d ann ;;
   modify (append_argument p) ;;
   when (negb (is_MISSING ds)) (modify (set_description k0 ds)) ;;
   when (negb (is_MISSING n)) (modify (set_rename k0 n))) l = (l', o) →
  recorded l' k →
  recorded l k ∨ k = k0.
Proof.
  intros Hrun Hrec.
  apply bind_inv in Hrun as [(l1 & p & H1 & Hrun) | (e & H1 & ->)].
  2: { unfold ParameterData_init in H1. destruct (valid k0); [done |].
       injection H1 as <- _. auto. }
  apply ParameterData_init_name in H1 as [-> Hp].
  unfold bind, modify, when in Hrun.
  destruct (is_MISSING ds), (is_MISSING n); simpl in Hrun;
    injection Hrun as <- _;
    repeat match goal with
    | Hr : recorded (set_rename _ _ _) _ |- _ =>
        apply recorded_set_rename in Hr as [Hr | ->]; [| by auto]
    | Hr : recorded (set_description _ _ _) _ |- _ =>
        apply recorded_set_description in Hr as [Hr | ->]; [| by auto]
    | Hr : recorded (append_argument _ _) _ |- _ =>
        apply recorded_append in Hr as [Hr | ->]; [| rewrite Hp; by auto]
    end; auto.
Qed.

(** One round of the loop records at most the attribute it visits, and
    only if that attribute is not skipped. *)
Lemma visit_recorded a k0 v l l' o k :
  visit valid G a (k0, v) l = (l', o) →
  recorded l' k →
  recorded l k ∨ (k = k0 ∧ skipped k0 v = false).
Proof.
  intros Hrun Hrec. unfold visit in Hrun.
  destruct (skipped k0 v) eqn:Hs.
  { injection Hrun as <- _. auto. }
  apply bind_inv in Hrun as [(l1 & ann & H1 & Hrun) | (e & H1 & ->)];
    apply get_method_store in H1 as ->; [| auto].
  apply bind_inv in Hrun as [(l1 & cls & H1 & Hrun) | (e & H1 & ->)];
    apply load_name_store in H1 as ->; [| auto].
  apply bind_inv in Hrun as [(l1 & b & H1 & Hrun) | (e & H1 & ->)];
    apply isinstance_store in H1 as ->; [| auto].
  apply bind_inv in Hrun as [(l1 & [[d ds] n] & H1 & Hrun) | (e & H1 & ->)].
  - assert (l1 = l) as ->.
    { destruct b.
      - apply bind_inv in H1 as [(l2 & ? & H2 & H1) | (e & H2 & [=])];
          apply getattr_store in H2 as ->.
        apply bind_inv in H1 as [(l2 & ? & H2 & H1) | (e & H2 & [=])];
          apply getattr_store in H2 as ->.
        apply bind_inv in H1 as [(l2 & ? & H2 & H1) | (e & H2 & [=])];
          apply getattr_store in H2 as ->.
        by injection H1.
      - destruct (is_MISSING v); by injection H1. }
    destruct (store_parameter_recorded _ _ _ _ _ _ _ _ _ Hrun Hrec); auto.
  - assert (l' = l) as ->; [| auto].
    destruct b.
    + apply bind_inv in H1 as [(l2 & ? & H2 & H1) | (e' & H2 & _)];
        apply getattr_store in H2 as ->; [| done].
      apply bind_inv in H1 as [(l2 & ? & H2 & H1) | (e' & H2 & _)];
        apply getattr_store in H2 as ->; [| done].
      apply bind_inv in H1 as [(l2 & ? & H2 & H1) | (e' & H2 & _)];
        apply getattr_store in H2 as ->; [| done].
      by injection H1.
    + destruct (is_MISSING v); by injection H1.
Qed.

(** The whole loop records attributes of the namespace only, and none
    that is skipped. *)
Lemma loop_recorded a items l l' o k :
  for_each items (visit valid G a) l = (l', o) →
  recorded l' k →
  recorded l k ∨ ∃ v, (k, v) ∈ items ∧ skipped k v = false.
Proof.
  revert l. induction items as [|[k0 v0] items IH]; intros l Hrun Hrec.
  { injection Hrun as <- _. auto. }
  rewrite for_each_cons in Hrun.
  destruct (visit valid G a (k0, v0) l) as [l1 [[]|e]] eqn:Hv.
  - destruct (IH _ Hrun Hrec) as [Hr | (v & Hin & Hs)].
    + destruct (visit_recorded _ _ _ _ _ _ _ Hv Hr) as [? | [-> Hs]]; [auto |].
      right. exists v0. split; [left | done].
    + right. exists v. split; [by right | done].
  - injection Hrun as <- _.
    destruct (visit_recorded _ _ _ _ _ _ _ Hv Hrec) as [? | [-> Hs]]; [auto |].
    right. exists v0. split; [left | done].
Qed.

Lemma fresh_locals_nothing_recorded k : ¬ recorded fresh_locals k.
Proof.
  unfold recorded, fresh_locals. simpl. rewrite !lookup_empty.
  intros [Hin | [[? [=]] | [? [=]]]]. by apply elem_of_nil in Hin.
Qed.

(** The store that [__new__] leaves holds something only for attributes
    that have a value in the class body and are eligible. *)
Lemma CommandMeta_new_recorded classname bases attrs k :
  recorded (CommandMeta_new valid G classname bases attrs).1 k →
  ∃ v, (k, v) ∈ attrs ∧ eligible k v.
Proof.
  unfold CommandMeta_new, CommandMeta_new_body.
  match goal with |- context [for_each ?i ?b] =>
    set (items := i); set (body := b) end.
  destruct (bind _ _ fresh_locals) as [l' o] eqn:Hrun. simpl. intros Hrec.
  assert (Hloop : ∃ o', for_each items body fresh_locals = (l', o')).
  { apply bind_inv in Hrun as [(l1 & [] & H1 & Hrun) | (e & H1 & ->)];
      [| eauto].
    apply bind_inv in Hrun as [(l2 & ty & H2 & Hrun) | (e & H2 & ->)];
      apply load_name_store in H2 as ->; [| eauto].
    unfold bind, gets, when, ret, raise in Hrun.
    destruct (_ && _); injection Hrun as <- _; eauto. }
  destruct Hloop as [o' Hloop].
  destruct (loop_recorded _ _ _ _ _ _ Hloop Hrec) as [Hr | (v & Hin & Hs)].
  { by apply fresh_locals_nothing_recorded in Hr. }
  apply skipped_false_iff_eligible in Hs.
  exists v. split; [| done].
  apply elem_of_dict_set_inv in Hin as [[-> _] | Hin]; [| done].
  by destruct Hs as (Hp & _ & _).
Qed.

End Recording.

(** ** Attributes declared by an annotation alone *)

(** The class that comes out carries what the store holds. *)
Lemma class_mentions_recorded valid G classname bases attrs c k :
  (CommandMeta_new valid G classname bases attrs).2 = Ok c →
  class_mentions c k →
  recorded (CommandMeta_new valid G classname bases attrs).1 k.
Proof.
  unfold CommandMeta_new.
  destruct (CommandMeta_new_body _ _ _ _ _ _) as [l o] eqn:Hrun.
  simpl. intros ->. unfold CommandMeta_new_body in Hrun.
  apply bind_inv in Hrun as [(l1 & [] & _ & Hrun) | (e & _ & [=])].
  apply bind_inv in Hrun as [(l2 & ty & H2 & Hrun) | (e & _ & [=])].
  apply load_name_store in H2 as ->.
  unfold bind, gets, when, ret, raise in Hrun.
  destruct (_ && _); [done |]. injection Hrun as <- <-.
  unfold class_mentions, recorded. simpl.
  intros [? | [Hr | Hd]]; [auto | right; left | right; right].
  - destruct (nonempty (renames l1)); [done | by destruct Hr].
  - destruct (nonempty (descriptions l1)); [done | by destruct Hd].
Qed.

(** C6.  An attribute that the class body declares by an annotation
    alone, with no value, gets nothing from the metaclass, whatever the
    global names are bound to: the store of [__new__] holds no parameter
    descriptor, rename or description for it, and neither does the class
    when one is created. *)
Theorem annotation_only_attribute_omitted valid G classname bases attrs k :
  annotation_only attrs k →
  ¬ recorded (CommandMeta_new valid G classname bases attrs).1 k
  ∧ ∀ c, (CommandMeta_new valid G classname bases attrs).2 = Ok c →
         ¬ class_mentions c k.
Proof.
  intros [_ Hnot].
  assert (Hstore : ¬ recorded (CommandMeta_new valid G classname bases attrs).1 k).
  { intros Hrec. apply CommandMeta_new_recorded in Hrec as (v & Hin & _).
    apply Hnot. unfold keys. apply list_elem_of_fmap.
    exists (k, v). done. }
  split; [done |].
  intros c Hc Hm. apply Hstore. by eapply class_mentions_recorded.
Qed.

Lemma annotation_only_attribute_omitted_witness :
  annotation_only Whois_body "member"
  ∧ ¬ recorded
        (CommandMeta_new any_name module_globals "Whois"
           [SlashCommand] Whois_body).1 "member"
  ∧ (CommandMeta_new any_name module_globals "Whois"
       [SlashCommand] Whois_body).2
    = Ok {| cls_name := "Whois"; cls_bases := [SlashCommand];
            cls_attrs := Whois_body;
            __discord_app_commands_params__ := [];
            __discord_app_commands_param_rename__ := None;
            __discord_app_commands_param_description__ := None |}.
Proof.
  assert (Hk : annotation_only Whois_body "member").
  { split; unfold keys; rewrite list_elem_of_In; simpl; [tauto |].
    intros H. repeat destruct H as [H | H]; first [discriminate | done]. }
  exact (conj Hk (conj (proj1
    (annotation_only_attribute_omitted any_name module_globals
       "Whois" [SlashCommand] Whois_body "member" Hk)) eq_refl)).
Defined.

Local Open Scope list_scope.

(** ** The arity check *)

Section Arity.

Variable valid : string → bool.
Variable G : gmap string value.

Lemma get_method_raises {S} d k dflt (s s' : S) e :
  get_method d k dflt s = (s', Raise e) → e = AttributeError "get".
Proof. unfold get_method. destruct d; by intros [= <- <-]. Qed.

Lemma load_name_raises {S} n (s s' : S) e :
  load_name G n s = (s', Raise e) → e = NameError n.
Proof.
  unfold load_name. destruct (G !! n); [done |].
  destruct (builtins !! n); [done |]. by intros [= <- <-].
Qed.

Lemma isinstance_raises {S} v c (s s' : S) e :
  isinstance v c s = (s', Raise e) → e ≠ arity_error.
Proof. unfold isinstance. destruct c; by intros [= <- <-]. Qed.

Lemma getattr_raises {S} v attr (s s' : S) e :
  getattr v attr s = (s', Raise e) → e = AttributeError attr.
Proof.
  unfold getattr. destruct v; try by intros [= <- <-].
  repeat case_match; by intros [= <- <-].
Qed.

Lemma ParameterData_init_raises {S} name d a (s s' : S) e :
  ParameterData_init valid name d a s = (s', Raise e) → e ≠ arity_error.
Proof.
  unfold ParameterData_init. destruct (valid name); [done |].
  by intros [= <- <-].
Qed.

Lemma visit_no_arity_error a item l l' e :
  visit valid G a item l = (l', Raise e) → e ≠ arity_error.
Proof.
  destruct item as [k v]. intros Hrun. unfold visit in Hrun.
  destruct (skipped k v); [done |].
  apply bind_inv in Hrun as [(l1 & ann & _ & Hrun) | (e' & H1 & [= ->])];
    [| by apply get_method_raises in H1 as ->].
  apply bind_inv in Hrun as [(l2 & cls & _ & Hrun) | (e' & H1 & [= ->])];
    [| by apply load_name_raises in H1 as ->].
  apply bind_inv in Hrun as [(l3 & b & _ & Hrun) | (e' & H1 & [= ->])];
    [| by apply isinstance_raises in H1].
  apply bind_inv in Hrun as [(l4 & [[d ds] n] & _ & Hrun) | (e' & H1 & [= ->])].
  - apply bind_inv in Hrun as [(l5 & p & _ & Hrun) | (e' & H1 & [= ->])];
      [| by apply ParameterData_init_raises in H1].
    unfold bind, modify, when, ret in Hrun.
    by destruct (is_MISSING ds), (is_MISSING n).
  - destruct b; [| by destruct (is_MISSING v)].
    apply bind_inv in H1 as [(? & ? & _ & H1) | (? & H1 & [= ->])];
      [| by apply getattr_raises in H1 as ->].
    apply bind_inv in H1 as [(? & ? & _ & H1) | (? & H1 & [= ->])];
      [| by apply getattr_raises in H1 as ->].
    apply bind_inv in H1 as [(? & ? & _ & H1) | (? & H1 & [= ->])];
      [done | by apply getattr_raises in H1 as ->].
Qed.

Lemma loop_no_arity_error a items l l' e :
  for_each items (visit valid G a) l = (l', Raise e) → e ≠ arity_error.
Proof.
  revert l. induction items as [|item items IH]; intros l; [done |].
  rewrite for_each_cons.
  destruct (visit valid G a item l) as [l1 [[]|e1]] eqn:Hv.
  - apply IH.
  - intros [= <- <-]. by eapply visit_no_arity_error.
Qed.

(** Unless the module binds a [type] of its own, the test
    [type in {AppCommandType.user, AppCommandType.message}] is false and
    the [TypeError] of the arity check is never raised. *)
Lemma arity_check_never_fires classname bases attrs :
  G !! "type" = None →
  (CommandMeta_new valid G classname bases attrs).2 ≠ Raise arity_error.
Proof.
  intros Hty. unfold CommandMeta_new.
  destruct (CommandMeta_new_body _ _ _ _ _ _) as [l o] eqn:Hrun. simpl.
  unfold CommandMeta_new_body in Hrun.
  apply bind_inv in Hrun as [(l1 & [] & _ & Hrun) | (e & H1 & ->)];
    [| intros [= ->]; by eapply loop_no_arity_error].
  unfold bind at 1 in Hrun. unfold load_name in Hrun. rewrite Hty in Hrun.
  change (builtins !! "type") with (Some (VClass CType)) in Hrun.
  unfold ret at 1 in Hrun. rewrite type_not_context_menu in Hrun.
  unfold bind, gets, when, ret in Hrun. simpl in Hrun.
  by injection Hrun as <- <-.
Qed.
End Arity.

(** ** The metaclass once [Parameter] names the [Option] class

    The rest of [__new__] does what the specification says of it as soon
    as the name read at line 128 is bound to [Option]; the arity check
    stays without effect. *)

Section Bound.

Variable valid : string → bool.
Variable G : gmap string value.
Hypothesis Parameter_is_Option : G !! "Parameter" = Some (VClass COption).
Hypothesis type_not_shadowed : G !! "type" = None.

Lemma isinstance_Option {S} v (s : S) :
  isinstance v (VClass COption) s
  = (s, Ok (match v with VOption _ _ _ _ => true | _ => false end)).
Proof. destruct v; try reflexivity. destruct c; reflexivity. Qed.

Lemma visit_bound anns k v l :
  (skipped k v = false → valid k = true) →
  visit valid G (VDict anns) (k, v) l = (record_attribute anns l (k, v), Ok tt).
Proof.
  intros Hvalid. unfold visit, record_attribute.
  destruct (skipped k v); [done |].
  unfold bind at 1. unfold get_method at 1, ret at 1.
  unfold bind at 1. unfold load_name at 1. rewrite Parameter_is_Option.
  unfold ret at 1.
  unfold bind at 1. rewrite isinstance_Option.
  unfold bind at 1.
  assert (Hfields :
    (if match v with VOption _ _ _ _ => true | _ => false end
     then d <- getattr v "default" ;;
          ds <- getattr v "description" ;;
          n <- getattr v "name" ;; ret (d, ds, n)
     else if negb (is_MISSING v) then ret (v, VMISSING, VMISSING)
          else ret (VMISSING, VMISSING, VMISSING)) l
    = (l, Ok (declared v))).
  { destruct v; reflexivity. }
  rewrite Hfields. destruct (declared v) as [[d ds] n] eqn:Hd.
  unfold bind, ParameterData_init. rewrite (Hvalid eq_refl).
  unfold descriptor. rewrite Hd. simpl.
  unfold modify, when, ret.
  by destruct (is_MISSING ds), (is_MISSING n).
Qed.

Lemma loop_bound anns items l :
  (∀ k v, (k, v) ∈ items → skipped k v = false → valid k = true) →
  for_each items (visit valid G (VDict anns)) l
  = (foldl (record_attribute anns) l items, Ok tt).
Proof.
  revert l. induction items as [|[k v] items IH]; intros l Hvalid; [done |].
  rewrite for_each_cons, visit_bound by (apply Hvalid; left).
  cbn [foldl]. apply IH. intros k' v' Hin. apply Hvalid. by right.
Qed.

Lemma record_attribute_private anns l k v :
  String.prefix "_" k = true → record_attribute anns l (k, v) = l.
Proof. intros H. unfold record_attribute. by rewrite private_skipped. Qed.

Lemma foldl_record_dict_set anns l attrs k v :
  String.prefix "_" k = true →
  foldl (record_attribute anns) l (dict_set attrs k v)
  = foldl (record_attribute anns) l attrs.
Proof.
  intros Hk. revert l.
  induction attrs as [|[k0 v0] attrs IH]; intros l; cbn [dict_set foldl].
  - by rewrite record_attribute_private.
  - destruct (String.eqb_spec k0 k); cbn [foldl].
    + subst k0. by rewrite !record_attribute_private.
    + apply IH.
Qed.

(** The class is created, with the metadata that [record_attribute]
    collects over the namespace. *)
Proposition CommandMeta_new_bound classname bases attrs :
  annotations_are_dict attrs →
  (∀ k v, (k, v) ∈ attrs → eligible k v → valid k = true) →
  let l := foldl (record_attribute (annotations_of attrs)) fresh_locals attrs in
  CommandMeta_new valid G classname bases attrs
  = (l, Ok {| cls_name := classname; cls_bases := bases; cls_attrs := attrs;
              __discord_app_commands_params__ := arguments l;
              __discord_app_commands_param_rename__ :=
                if nonempty (renames l) then Some (renames l) else None;
              __discord_app_commands_param_description__ :=
                if nonempty (descriptions l) then Some (descriptions l)
                else None |}).
Proof.
  intros Hwf Hvalid l. unfold CommandMeta_new, CommandMeta_new_body.
  rewrite (annotations_of_items _ Hwf).
  unfold bind at 1. rewrite loop_bound.
  - rewrite foldl_record_dict_set by done. fold l.
    unfold bind at 1. unfold load_name. rewrite type_not_shadowed.
    change (builtins !! "type") with (Some (VClass CType)).
    unfold ret at 1. rewrite type_not_context_menu. reflexivity.
  - intros k v Hin Hs. apply skipped_false_iff_eligible in Hs.
    apply (Hvalid k v); [| done].
    apply elem_of_dict_set_inv in Hin as [[-> _] | Hin]; [| done].
    by destruct Hs as (Hp & _ & _).
Qed.

End Bound.

Section Fold.
Variable anns : list (string * value).

Lemma arguments_record_attribute l k v :
  arguments (record_attribute anns l (k, v))
  = arguments l ++ (if skipped k v then [] else [descriptor anns k v]).
Proof.
  unfold record_attribute. destruct (skipped k v); [by rewrite app_nil_r |].
  destruct (declared v) as [[d ds] n].
  by destruct (is_MISSING ds), (is_MISSING n).
Qed.

Lemma renames_record_attribute l k v k' :
  renames (record_attribute anns l (k, v)) !! k'
  = if decide (k = k' ∧ skipped k v = false ∧ is_MISSING (declared v).2 = false)
    then Some (declared v).2 else renames l !! k'.
Proof.
  unfold record_attribute. destruct (skipped k v).
  { case_decide; [intuition congruence | done]. }
  destruct (declared v) as [[d ds] n]. simpl.
  destruct (is_MISSING n).
  { case_decide; [intuition congruence |]. by destruct (is_MISSING ds). }
  assert (∀ l1, renames (set_rename k n l1) !! k'
                = if decide (k = k') then Some n else renames l1 !! k') as ->.
  { intros l1. unfold set_rename. simpl. rewrite lookup_insert.
    repeat case_decide; simpl in *; intuition congruence. }
  repeat case_decide; try intuition congruence.
  by destruct (is_MISSING ds).
Qed.

Lemma descriptions_record_attribute l k v k' :
  descriptions (record_attribute anns l (k, v)) !! k'
  = if decide (k = k' ∧ skipped k v = false
               ∧ is_MISSING (declared v).1.2 = false)
    then Some (declared v).1.2 else descriptions l !! k'.
Proof.
  unfold record_attribute. destruct (skipped k v).
  { case_decide; [intuition congruence | done]. }
  destruct (declared v) as [[d ds] n]. simpl.
  assert (∀ l1, descriptions (if is_MISSING n then l1 else set_rename k n l1)
                = descriptions l1) as ->.
  { intros l1. by destruct (is_MISSING n). }
  destruct (is_MISSING ds).
  { case_decide; [intuition congruence | done]. }
  unfold set_description. simpl. rewrite lookup_insert.
  repeat case_decide; simpl in *; intuition congruence.
Qed.

(** The parameter list: the descriptors of the eligible attributes, in
    the order of the namespace. *)
Lemma arguments_foldl l items :
  arguments (foldl (record_attribute anns) l items)
  = arguments l
    ++ ((λ item, descriptor anns item.1 item.2)
          <$> filter (λ item, skipped item.1 item.2 = false) items).
Proof.
  revert l. induction items as [|[k v] items IH]; intros l; cbn [foldl].
  - by rewrite app_nil_r.
  - rewrite IH, arguments_record_attribute, filter_cons. simpl.
    destruct (skipped k v); case_decide; try done.
    + by rewrite app_nil_r.
    + by rewrite <- app_assoc.
Qed.

Lemma renames_foldl_other l items k :
  k ∉ keys items →
  renames (foldl (record_attribute anns) l items) !! k = renames l !! k.
Proof.
  unfold keys. revert l.
  induction items as [|[k0 v0] items IH]; intros l Hk; cbn [foldl]; [done |].
  rewrite fmap_cons, not_elem_of_cons in Hk. destruct Hk as [Hne Hk].
  rewrite IH, renames_record_attribute by done.
  case_decide; simpl in *; intuition congruence.
Qed.

Lemma descriptions_foldl_other l items k :
  k ∉ keys items →
  descriptions (foldl (record_attribute anns) l items) !! k
  = descriptions l !! k.
Proof.
  unfold keys. revert l.
  induction items as [|[k0 v0] items IH]; intros l Hk; cbn [foldl]; [done |].
  rewrite fmap_cons, not_elem_of_cons in Hk. destruct Hk as [Hne Hk].
  rewrite IH, descriptions_record_attribute by done.
  case_decide; simpl in *; intuition congruence.
Qed.

(** With one entry per key, the rename and the description of an
    eligible attribute are the ones its value declares. *)
Lemma renames_foldl l items k v :
  NoDup (keys items) → (k, v) ∈ items → skipped k v = false →
  renames (foldl (record_attribute anns) l items) !! k
  = if is_MISSING (declared v).2 then renames l !! k else Some (declared v).2.
Proof.
  unfold keys. revert l.
  induction items as [|[k0 v0] items IH]; intros l Hnd Hin Hs; cbn [foldl].
  { by apply elem_of_nil in Hin. }
  rewrite fmap_cons, NoDup_cons in Hnd. destruct Hnd as [Hk0 Hnd].
  apply elem_of_cons in Hin as [[= <- <-] | Hin].
  - rewrite renames_foldl_other, renames_record_attribute by done.
    destruct (is_MISSING (declared v).2); case_decide; simpl in *; intuition congruence.
  - rewrite IH, renames_record_attribute by done.
    assert (k0 ≠ k).
    { intros ->. apply Hk0. apply list_elem_of_fmap. by exists (k, v). }
    case_decide; simpl in *; intuition congruence.
Qed.

Lemma descriptions_foldl l items k v :
  NoDup (keys items) → (k, v) ∈ items → skipped k v = false →
  descriptions (foldl (record_attribute anns) l items) !! k
  = if is_MISSING (declared v).1.2 then descriptions l !! k
    else Some (declared v).1.2.
Proof.
  unfold keys. revert l.
  induction items as [|[k0 v0] items IH]; intros l Hnd Hin Hs; cbn [foldl].
  { by apply elem_of_nil in Hin. }
  rewrite fmap_cons, NoDup_cons in Hnd. destruct Hnd as [Hk0 Hnd].
  apply elem_of_cons in Hin as [[= <- <-] | Hin].
  - rewrite descriptions_foldl_other, descriptions_record_attribute by done.
    destruct (is_MISSING (declared v).1.2); case_decide; simpl in *; intuition congruence.
  - rewrite IH, descriptions_record_attribute by done.
    assert (k0 ≠ k).
    { intros ->. apply Hk0. apply list_elem_of_fmap. by exists (k, v). }
    case_decide; simpl in *; intuition congruence.
Qed.

End Fold.

Lemma stored_map_lookup (m : gmap string value) k :
  (if nonempty m then Some m else None) ≫= (.!! k) = m !! k.
Proof.
  unfold nonempty. destruct (Nat.eqb_spec (size m) 0) as [Hz | Hnz]; simpl.
  - apply map_size_empty_iff in Hz. subst m. by rewrite lookup_empty.
  - done.
Qed.

Section Intended.

Variable valid : string → bool.
Variable G : gmap string value.
Hypothesis Parameter_is_Option : G !! "Parameter" = Some (VClass COption).
Hypothesis type_not_shadowed : G !! "type" = None.

Variable classname : string.
Variable bases : list pyclass.
Variable attrs : list (string * value).
Hypothesis attrs_annotations : annotations_are_dict attrs.
Hypothesis attrs_valid : ∀ k v, (k, v) ∈ attrs → eligible k v → valid k = true.

(** The class is created, and its parameter list holds the descriptors
    of the eligible attributes in declaration order. *)
Proposition parameters_once_bound :
  ∃ c, (CommandMeta_new valid G classname bases attrs).2 = Ok c
       ∧ __discord_app_commands_params__ c
         = (λ item, descriptor (annotations_of attrs) item.1 item.2)
             <$> filter (λ item, skipped item.1 item.2 = false) attrs.
Proof.
  rewrite (CommandMeta_new_bound valid G) by done.
  eexists. split; [reflexivity |]. simpl. by rewrite arguments_foldl.
Qed.

(** Each eligible attribute has its descriptor in the list, and its
    rename and description are those its value declares. *)
Proposition attribute_once_bound k v :
  NoDup (keys attrs) → (k, v) ∈ attrs → eligible k v →
  ∃ c, (CommandMeta_new valid G classname bases attrs).2 = Ok c
       ∧ descriptor (annotations_of attrs) k v
         ∈ __discord_app_commands_params__ c
       ∧ __discord_app_commands_param_rename__ c ≫= (.!! k)
         = (if is_MISSING (declared v).2 then None else Some (declared v).2)
       ∧ __discord_app_commands_param_description__ c ≫= (.!! k)
         = (if is_MISSING (declared v).1.2 then None
            else Some (declared v).1.2).
Proof.
  intros Hnd Hin Hel. apply skipped_false_iff_eligible in Hel.
  rewrite (CommandMeta_new_bound valid G) by done.
  eexists. split; [reflexivity |]. simpl.
  rewrite !stored_map_lookup, arguments_foldl.
  rewrite (renames_foldl _ _ _ k v), (descriptions_foldl _ _ _ k v) by done.
  split; [| done]. simpl.
  apply (list_elem_of_fmap_2' _ _ (k, v)); [| done].
  by apply list_elem_of_filter.
Qed.

(** An attribute that holds [Option(d, n, desc)], none of the three
    being [MISSING]: default [d], rename [n], description [desc]. *)
Corollary Option_attribute_once_bound k d n desc ac :
  NoDup (keys attrs) → (k, Option d n desc ac) ∈ attrs →
  eligible k (Option d n desc ac) →
  is_MISSING d = false → is_MISSING n = false → is_MISSING desc = false →
  ∃ c p, (CommandMeta_new valid G classname bases attrs).2 = Ok c
         ∧ p ∈ __discord_app_commands_params__ c
         ∧ param_name p = k ∧ param_default p = d
         ∧ __discord_app_commands_param_rename__ c ≫= (.!! k) = Some n
         ∧ __discord_app_commands_param_description__ c ≫= (.!! k)
           = Some desc.
Proof.
  intros Hnd Hin Hel Hd Hn Hdesc.
  destruct (attribute_once_bound _ _ Hnd Hin Hel) as (c & Hc & Hp & Hr & Hds).
  exists c, (descriptor (annotations_of attrs) k (Option d n desc ac)).
  simpl in Hr, Hds. rewrite Hn in Hr. rewrite Hdesc in Hds.
  repeat split; try done. simpl. by rewrite Hd.
Qed.

(** An attribute that holds a bare value [v], neither an [Option] nor
    [MISSING]: default [v], no rename, no description. *)
Corollary bare_value_once_bound k v :
  NoDup (keys attrs) → (k, v) ∈ attrs → eligible k v →
  type_of v ≠ COption → is_MISSING v = false →
  ∃ c p, (CommandMeta_new valid G classname bases attrs).2 = Ok c
         ∧ p ∈ __discord_app_commands_params__ c
         ∧ param_name p = k ∧ param_default p = v
         ∧ __discord_app_commands_param_rename__ c ≫= (.!! k) = None
         ∧ __discord_app_commands_param_description__ c ≫= (.!! k) = None.
Proof.
  intros Hnd Hin Hel Hty Hv.
  destruct (attribute_once_bound _ _ Hnd Hin Hel) as (c & Hc & Hp & Hr & Hds).
  exists c, (descriptor (annotations_of attrs) k v).
  assert (Hdecl : declared v = (v, VMISSING, VMISSING))
    by (destruct v; done).
  rewrite Hdecl in Hr, Hds. simpl in Hr, Hds.
  repeat split; try done. unfold descriptor. rewrite Hdecl. simpl.
  by rewrite Hv.
Qed.

End Intended.

(** [Ban] then gets its descriptor, rename and description. *)
Lemma Ban_created_once_bound :
  ∃ c, (CommandMeta_new any_name globals_with_Parameter "Ban" [SlashCommand]
          Ban_body).2 = Ok c
       ∧ __discord_app_commands_params__ c
         = [ {| param_name := "days"; param_kind := POSITIONAL_OR_KEYWORD;
                param_default := VInt 7; param_annotation := VStr "str" |} ]
       ∧ __discord_app_commands_param_rename__ c
         = Some {[ "days" := VStr "delete_days" ]}
       ∧ __discord_app_commands_param_description__ c
         = Some {[ "days" := VStr "Days of messages to delete" ]}.
Proof. eexists. split; [reflexivity |]. repeat split; reflexivity. Qed.

(** A user command with two eligible attributes is then created: no
    [TypeError]. *)
Lemma Report_created_once_bound :
  (CommandMeta_new any_name globals_with_Parameter "Report" [UserCommand]
     Report_body).2
  = Ok {| cls_name := "Report"; cls_bases := [UserCommand];
          cls_attrs := Report_body;
          __discord_app_commands_params__ :=
            [ {| param_name := "reason"; param_kind := POSITIONAL_OR_KEYWORD;
                 param_default := VStr "spam"; param_annotation := VStr "str" |};
              {| param_name := "silent"; param_kind := POSITIONAL_OR_KEYWORD;
                 param_default := VBool false;
                 param_annotation := VStr "str" |} ];
          __discord_app_commands_param_rename__ := None;
          __discord_app_commands_param_description__ := None |}.
Proof. reflexivity. Qed.

Import Metadata Replies MoreExamples.

(** ** A class body whose [__annotations__] is no dictionary: the
    exception is another *)

(** C4, as it is worded, fails.  [Odd] binds [__annotations__] to [None]
    and has the eligible attribute [size]; class construction raises
    [AttributeError] at the lookup of the annotation (line 126), not
    [NameError]: the name [Parameter] (line 128) is not reached. *)
Lemma eligible_attribute_AttributeError :
  ("size", VInt 1) ∈ Odd_body
  ∧ eligible "size" (VInt 1)
  ∧ CommandMeta_new any_name module_globals "Odd" [SlashCommand] Odd_body
    = (fresh_locals, Raise (AttributeError "get"))
  ∧ CommandMeta_new any_name module_globals "Odd" [SlashCommand] Odd_body
    ≠ (fresh_locals, Raise (NameError "Parameter")).
Proof.
  split; [apply list_elem_of_In; simpl; tauto |].
  split; [apply skipped_false_iff_eligible; reflexivity |].
  split; [reflexivity | discriminate].
Qed.

(** ** Proving that a class body is an ordinary one *)

Ltac solve_ordinary_body :=
  unfold ordinary_body, keys;
  repeat split;
  first [ exact I
        | apply (bool_decide_unpack _); vm_compute; exact I
        | repeat (constructor; [split; [discriminate | reflexivity] |]);
          constructor ].

(** * Further properties of the metaclass *)

(** ** What creation tells, on the module as it is *)

Lemma forallb_skipped_iff attrs :
  forallb (λ item : string * value, skipped item.1 item.2) attrs = true
  ↔ ∀ k v, (k, v) ∈ attrs → ¬ eligible k v.
Proof.
  rewrite forallb_forall. split.
  - intros Hall k v Hin Hel. apply skipped_false_iff_eligible in Hel.
    apply list_elem_of_In, Hall in Hin. simpl in Hin. congruence.
  - intros Hno [k v] Hin. apply list_elem_of_In in Hin. simpl.
    destruct (skipped k v) eqn:Hs; [done |].
    apply skipped_false_iff_eligible in Hs. by destruct (Hno k v Hin).
Qed.

(** X1.  On the module as it is, an ordinary class body becomes a class
    only if none of its attributes is eligible; and whenever a class is
    created from it, the metaclass has given it an empty parameter list
    and has stored neither a rename map nor a description map. *)
Theorem created_only_if_nothing_eligible valid classname bases attrs c :
  ordinary_body attrs →
  (CommandMeta_new valid module_globals classname bases attrs).2 = Ok c →
  (∀ k v, (k, v) ∈ attrs → ¬ eligible k v)
  ∧ __discord_app_commands_params__ c = []
  ∧ __discord_app_commands_param_rename__ c = None
  ∧ __discord_app_commands_param_description__ c = None.
Proof.
  intros (_ & _ & Hwf & _ & _). rewrite CommandMeta_new_unbound by done.
  rewrite <- forallb_skipped_iff.
  destruct (forallb _ attrs); simpl; [| done].
  by intros [= <-].
Qed.

Lemma created_only_if_nothing_eligible_witness :
  ordinary_body Whois_body
  ∧ (∀ k v, (k, v) ∈ Whois_body → ¬ eligible k v)
  ∧ (CommandMeta_new any_name module_globals "Whois" [SlashCommand]
       Whois_body).2
    = Ok {| cls_name := "Whois"; cls_bases := [SlashCommand];
            cls_attrs := Whois_body;
            __discord_app_commands_params__ := [];
            __discord_app_commands_param_rename__ := None;
            __discord_app_commands_param_description__ := None |}.
Proof.
  assert (Hbody : ordinary_body Whois_body) by solve_ordinary_body.
  exact (conj Hbody (conj (proj1
    (created_only_if_nothing_eligible any_name "Whois" [SlashCommand]
       Whois_body _ Hbody eq_refl)) eq_refl)).
Defined.

(** ** What the arity check does *)

(** X2.  Whatever the bases and however many attributes the class body
    has, class construction never raises the [TypeError] of the arity
    check, as long as the module binds no [type] of its own: the name
    [type] is then the builtin class, which is no member of the set. *)
Theorem arity_TypeError_never_raised valid G classname bases attrs :
  G !! "type" = None →
  (CommandMeta_new valid G classname bases attrs).2 ≠ Raise arity_error.
Proof. apply arity_check_never_fires. Qed.

Lemma arity_TypeError_never_raised_witness :
  globals_with_Parameter !! "type" = None
  ∧ (CommandMeta_new any_name globals_with_Parameter "Report" [UserCommand]
       Report_body).2 ≠ Raise arity_error.
Proof.
  exact (conj eq_refl
    (arity_TypeError_never_raised any_name globals_with_Parameter "Report"
       [UserCommand] Report_body eq_refl)).
Defined.

(** ** Which attributes can become parameters *)

(** X3.  On the module as it is, or with [Parameter] bound to the
    [Option] class besides, and for an ordinary class body: an attribute
    name all of whose entries are skipped (a private name, [interaction],
    a function, a classmethod or a staticmethod) gets no parameter
    descriptor, rename or description from the metaclass, neither in the
    store of [__new__] nor in the class when one is created. *)
Theorem skipped_attribute_never_recorded valid G classname bases attrs k :
  known_globals G →
  ordinary_body attrs →
  (∀ v, (k, v) ∈ attrs → ¬ eligible k v) →
  ¬ recorded (CommandMeta_new valid G classname bases attrs).1 k
  ∧ ∀ c, (CommandMeta_new valid G classname bases attrs).2 = Ok c →
         ¬ class_mentions c k.
Proof.
  intros _ _ Hno.
  assert (Hstore : ¬ recorded (CommandMeta_new valid G classname bases attrs).1 k).
  { intros (v & Hin & Hel)%CommandMeta_new_recorded. by apply (Hno v). }
  split; [done |].
  intros c Hc Hm. apply Hstore. by eapply class_mentions_recorded.
Qed.

Lemma skipped_attribute_never_recorded_witness :
  known_globals globals_with_Parameter
  ∧ ordinary_body Greet_body
  ∧ (∀ v, ("callback", v) ∈ Greet_body → ¬ eligible "callback" v)
  ∧ ¬ recorded
        (CommandMeta_new any_name globals_with_Parameter "Greet"
           [SlashCommand] Greet_body).1 "callback".
Proof.
  assert (HG : known_globals globals_with_Parameter) by (by right).
  assert (Hbody : ordinary_body Greet_body) by solve_ordinary_body.
  assert (Hno : ∀ v, ("callback", v) ∈ Greet_body → ¬ eligible "callback" v).
  { intros v Hin Hel. apply skipped_false_iff_eligible in Hel.
    apply list_elem_of_In in Hin. simpl in Hin.
    repeat destruct Hin as [Hin | Hin]; try discriminate; try done.
    injection Hin as <-. discriminate. }
  exact (conj HG (conj Hbody (conj Hno (proj1
    (skipped_attribute_never_recorded any_name globals_with_Parameter "Greet"
       [SlashCommand] Greet_body "callback" HG Hbody Hno))))).
Defined.

(** ** Invariants of the metadata *)

Section WellFormed.

Variable valid : string → bool.
Variable G : gmap string value.

Lemma is_MISSING_false v : is_MISSING v = false ↔ v ≠ VMISSING.
Proof. destruct v; simpl; split; congruence. Qed.

Lemma ParameterData_init_well_formed {S} name d a (s s' : S) p :
  ParameterData_init valid name d a s = (s', Ok p) →
  s' = s ∧ well_formed valid p.
Proof.
  unfold ParameterData_init. destruct (valid name) eqn:Hv; [| done].
  intros [= <- <-]. split; [done |]. unfold well_formed. simpl.
  repeat split; [done | |].
  - destruct (is_MISSING d) eqn:Hd; [done | by apply is_MISSING_false].
  - destruct (is_MISSING a) eqn:Ha; [done | by apply is_MISSING_false].
Qed.

Lemma no_MISSING_insert m k v :
  is_MISSING v = false → no_MISSING m → no_MISSING (<[k := v]> m).
Proof.
  intros Hv Hm k' v'. rewrite lookup_insert.
  case_decide; [intros [= <-]; by apply is_MISSING_false | apply Hm].
Qed.

Lemma fresh_locals_well_formed : store_well_formed valid fresh_locals.
Proof.
  repeat split; [apply Forall_nil_2 | |]; intros k v; simpl;
    by rewrite lookup_empty.
Qed.

(** The last four statements of a round keep the store well formed. *)
Lemma store_parameter_well_formed k d ds n ann l l' o :
  (p <- ParameterData_init valid k d ann ;;
   modify (append_argument p) ;;
   when (negb (is_MISSING ds)) (modify (set_description k ds)) ;;
   when (negb (is_MISSING n)) (modify (set_rename k n))) l = (l', o) →
  store_well_formed valid l → store_well_formed valid l'.
Proof.
  intros Hrun (Hargs & Hren & Hdesc).
  apply bind_inv in Hrun as [(l1 & p & H1 & Hrun) | (e & H1 & ->)].
  2: { unfold ParameterData_init in H1. destruct (valid k); [done |].
       by injection H1 as <- _. }
  apply ParameterData_init_well_formed in H1 as [-> Hp].
  assert (Happ : Forall (well_formed valid) (arguments l ++ [p])).
  { apply Forall_app. split; [done | by constructor]. }
  unfold bind, modify, when in Hrun.
  destruct (is_MISSING ds) eqn:Hds, (is_MISSING n) eqn:Hn; simpl in Hrun;
    injection Hrun as <- _; unfold store_well_formed; simpl;
    repeat split; auto using no_MISSING_insert.
Qed.

Lemma visit_well_formed a item l l' o :
  visit valid G a item l = (l', o) →
  store_well_formed valid l → store_well_formed valid l'.
Proof.
  destruct item as [k v]. intros Hrun Hl. unfold visit in Hrun.
  destruct (skipped k v).
  { by injection Hrun as <- _. }
  apply bind_inv in Hrun as [(l1 & ann & H1 & Hrun) | (e & H1 & ->)];
    apply get_method_store in H1 as ->; [| done].
  apply bind_inv in Hrun as [(l1 & cls & H1 & Hrun) | (e & H1 & ->)];
    apply load_name_store in H1 as ->; [| done].
  apply bind_inv in Hrun as [(l1 & b & H1 & Hrun) | (e & H1 & ->)];
    apply isinstance_store in H1 as ->; [| done].
  assert (Hfields : ∀ l1 r,
    (if b
     then d <- getattr v "default" ;;
          ds <- getattr v "description" ;;
          n <- getattr v "name" ;; ret (d, ds, n)
     else if negb (is_MISSING v) then ret (v, VMISSING, VMISSING)
          else ret (VMISSING, VMISSING, VMISSING)) l = (l1, r) → l1 = l).
  { intros l1 r H1. destruct b; [| destruct (is_MISSING v); by injection H1].
    apply bind_inv in H1 as [(l2 & ? & H2 & H1) | (? & H2 & _)];
      apply getattr_store in H2 as ->; [| done].
    apply bind_inv in H1 as [(l2 & ? & H2 & H1) | (? & H2 & _)];
      apply getattr_store in H2 as ->; [| done].
    apply bind_inv in H1 as [(l2 & ? & H2 & H1) | (? & H2 & _)];
      apply getattr_store in H2 as ->; [| done].
    by injection H1. }
  apply bind_inv in Hrun as [(l1 & [[d ds] n] & H1 & Hrun) | (e & H1 & ->)];
    apply Hfields in H1 as ->; [| done].
  by eapply store_parameter_well_formed.
Qed.

Lemma loop_well_formed a items l l' o :
  for_each items (visit valid G a) l = (l', o) →
  store_well_formed valid l → store_well_formed valid l'.
Proof.
  revert l. induction items as [|item items IH]; intros l Hrun Hl.
  { by injection Hrun as <- _. }
  rewrite for_each_cons in Hrun.
  destruct (visit valid G a item l) as [l1 [[]|e]] eqn:Hv.
  - eapply IH; [done |]. by eapply visit_well_formed.
  - injection Hrun as <- _. by eapply visit_well_formed.
Qed.

(** After the loop nothing is stored any more, and the class carries what
    the store holds. *)
Lemma class_of_store classname bases attrs l o :
  CommandMeta_new valid G classname bases attrs = (l, o) →
  (∃ o', for_each
           (dict_set attrs "__discord_app_commands_params__" arguments_object)
           (visit valid G
              (default (VDict [])
                 (dict_get
                    (dict_set attrs "__discord_app_commands_params__"
                       arguments_object) "__annotations__")))
           fresh_locals = (l, o'))
  ∧ ∀ c, o = Ok c →
         c = {| cls_name := classname; cls_bases := bases; cls_attrs := attrs;
                __discord_app_commands_params__ := arguments l;
                __discord_app_commands_param_rename__ :=
                  if nonempty (renames l) then Some (renames l) else None;
                __discord_app_commands_param_description__ :=
                  if nonempty (descriptions l) then Some (descriptions l)
                  else None |}.
Proof.
  unfold CommandMeta_new, CommandMeta_new_body. intros Hrun.
  apply bind_inv in Hrun as [(l1 & [] & H1 & Hrun) | (e & H1 & ->)];
    [| split; [eauto | done]].
  apply bind_inv in Hrun as [(l2 & ty & H2 & Hrun) | (e & H2 & ->)];
    apply load_name_store in H2 as ->; [| split; [eauto | done]].
  unfold bind, gets, when, ret, raise in Hrun.
  destruct (_ && _); injection Hrun as <- <-; (split; [eauto |]); [done |].
  by intros c [= <-].
Qed.

Lemma CommandMeta_new_well_formed classname bases attrs :
  store_well_formed valid (CommandMeta_new valid G classname bases attrs).1.
Proof.
  destruct (CommandMeta_new valid G classname bases attrs) as [l o] eqn:Hrun.
  apply class_of_store in Hrun as [[o' Hloop] _]. simpl.
  eapply loop_well_formed; [done | apply fresh_locals_well_formed].
Qed.

End WellFormed.

(** X4.  On the module as it is, or with [Parameter] bound to the
    [Option] class besides, and for an ordinary class body: every
    parameter descriptor of a created class is positional-or-keyword, has
    a name that the standard library's test accepts, and holds [MISSING]
    neither as default nor as annotation ([inspect.Parameter.empty]
    stands in for it). *)
Theorem created_parameters_well_formed valid G classname bases attrs c p :
  known_globals G →
  ordinary_body attrs →
  (CommandMeta_new valid G classname bases attrs).2 = Ok c →
  p ∈ __discord_app_commands_params__ c →
  param_kind p = POSITIONAL_OR_KEYWORD
  ∧ valid (param_name p) = true
  ∧ param_default p ≠ VMISSING
  ∧ param_annotation p ≠ VMISSING.
Proof.
  intros _ _ Hc Hp.
  pose proof (CommandMeta_new_well_formed valid G classname bases attrs)
    as (Hargs & _ & _).
  destruct (CommandMeta_new valid G classname bases attrs) as [l o] eqn:Hrun.
  simpl in *. subst o.
  apply class_of_store in Hrun as [_ Hclass].
  rewrite (Hclass c eq_refl) in Hp. simpl in Hp.
  rewrite Forall_forall in Hargs. by apply Hargs.
Qed.

(** X5.  On the module as it is, or with [Parameter] bound to the
    [Option] class besides, and for an ordinary class body: a rename map
    or a description map that the metaclass gives a created class is not
    empty, and none of its entries is [MISSING]. *)
Theorem created_maps_well_formed valid G classname bases attrs c m :
  known_globals G →
  ordinary_body attrs →
  (CommandMeta_new valid G classname bases attrs).2 = Ok c →
  __discord_app_commands_param_rename__ c = Some m
  ∨ __discord_app_commands_param_description__ c = Some m →
  m ≠ ∅ ∧ ∀ k v, m !! k = Some v → v ≠ VMISSING.
Proof.
  intros _ _ Hc Hm.
  pose proof (CommandMeta_new_well_formed valid G classname bases attrs)
    as (_ & Hren & Hdesc).
  destruct (CommandMeta_new valid G classname bases attrs) as [l o] eqn:Hrun.
  simpl in *. subst o.
  apply class_of_store in Hrun as [_ Hclass].
  rewrite (Hclass c eq_refl) in Hm. simpl in Hm.
  assert (Hne : ∀ m' : gmap string value,
            (if nonempty m' then Some m' else None) = Some m →
            m' = m ∧ m ≠ ∅).
  { intros m'. unfold nonempty.
    destruct (Nat.eqb_spec (size m') 0) as [Hz | Hnz]; simpl; [done |].
    intros [= <-]. split; [done |]. intros ->. by rewrite map_size_empty in Hnz. }
  destruct Hm as [Hm | Hm]; apply Hne in Hm as [<- Hm]; auto.
Qed.

Lemma created_parameters_well_formed_witness :
  known_globals globals_with_Parameter
  ∧ ordinary_body Ban_body
  ∧ ∃ c p,
      (CommandMeta_new any_name globals_with_Parameter "Ban" [SlashCommand]
         Ban_body).2 = Ok c
      ∧ p ∈ __discord_app_commands_params__ c
      ∧ param_name p = "days"
      ∧ param_default p ≠ VMISSING.
Proof.
  assert (HG : known_globals globals_with_Parameter) by (by right).
  assert (Hbody : ordinary_body Ban_body) by solve_ordinary_body.
  split; [exact HG |]. split; [exact Hbody |].
  eexists _, {| param_name := "days"; param_kind := POSITIONAL_OR_KEYWORD;
                param_default := VInt 7; param_annotation := VStr "str" |}.
  assert (Hp : {| param_name := "days"; param_kind := POSITIONAL_OR_KEYWORD;
                  param_default := VInt 7; param_annotation := VStr "str" |}
               ∈ [ {| param_name := "days"; param_kind := POSITIONAL_OR_KEYWORD;
                      param_default := VInt 7;
                      param_annotation := VStr "str" |} ]) by left.
  exact (conj eq_refl (conj Hp (conj eq_refl (proj1 (proj2 (proj2
    (created_parameters_well_formed any_name globals_with_Parameter "Ban"
       [SlashCommand] Ban_body _ _ HG Hbody eq_refl Hp))))))).
Defined.

Lemma created_maps_well_formed_witness :
  known_globals globals_with_Parameter
  ∧ ordinary_body Ban_body
  ∧ ∃ c m,
      (CommandMeta_new any_name globals_with_Parameter "Ban" [SlashCommand]
         Ban_body).2 = Ok c
      ∧ __discord_app_commands_param_rename__ c = Some m
      ∧ m ≠ ∅.
Proof.
  assert (HG : known_globals globals_with_Parameter) by (by right).
  assert (Hbody : ordinary_body Ban_body) by solve_ordinary_body.
  split; [exact HG |]. split; [exact Hbody |].
  eexists _, _.
  exact (conj eq_refl (conj eq_refl (proj1
    (created_maps_well_formed any_name globals_with_Parameter "Ban"
       [SlashCommand] Ban_body _ _ HG Hbody eq_refl (or_introl eq_refl))))).
Defined.

(** ** The metaclass after its loop *)

(** [__new__] spelled out after the loop. *)
Lemma CommandMeta_new_after_loop valid G classname bases attrs :
  CommandMeta_new valid G classname bases attrs
  = let items :=
      dict_set attrs "__discord_app_commands_params__" arguments_object in
    match for_each items
            (visit valid G
               (default (VDict []) (dict_get items "__annotations__")))
            fresh_locals with
    | (l, Raise e) => (l, Raise e)
    | (l, Ok _) =>
        match load_name G "type" l with
        | (l1, Raise e) => (l1, Raise e)
        | (l1, Ok type) =>
            if in_set type [VEnum user; VEnum message]
               && bool_decide (1 < length (arguments l1))
            then (l1, Raise arity_error)
            else
              (l1,
               Ok {| cls_name := classname; cls_bases := bases;
                     cls_attrs := attrs;
                     __discord_app_commands_params__ := arguments l1;
                     __discord_app_commands_param_rename__ :=
                       if nonempty (renames l1) then Some (renames l1)
                       else None;
                     __discord_app_commands_param_description__ :=
                       if nonempty (descriptions l1)
                       then Some (descriptions l1) else None |})
        end
    end.
Proof.
  unfold CommandMeta_new, CommandMeta_new_body. cbv zeta. unfold bind at 1.
  destruct (for_each _ _ fresh_locals) as [l [[]|e]]; [| done].
  unfold bind at 1.
  destruct (load_name G "type" l) as [l1 [ty|e]]; [| done].
  unfold bind, gets, when, ret, raise.
  by destruct (_ && _).
Qed.

(** ** A class body whose [__annotations__] has no [get] *)

Section NoDictionary.

Variable valid : string → bool.
Variable G : gmap string value.

Lemma visit_no_dictionary a k v l :
  (∀ items, a ≠ VDict items) →
  visit valid G a (k, v) l
  = if skipped k v then (l, Ok tt) else (l, Raise (AttributeError "get")).
Proof.
  intros Ha. unfold visit. destruct (skipped k v); [done |].
  unfold bind, get_method. destruct a; try done. by destruct (Ha items).
Qed.

Lemma loop_no_dictionary a items l :
  (∀ items', a ≠ VDict items') →
  for_each items (visit valid G a) l
  = if forallb (λ item, skipped item.1 item.2) items
    then (l, Ok tt) else (l, Raise (AttributeError "get")).
Proof.
  intros Ha. induction items as [|[k v] items IH]; [done |].
  rewrite for_each_cons, visit_no_dictionary by done. cbn [forallb fst snd].
  by destruct (skipped k v).
Qed.

End NoDictionary.

(** X6.  On the module as it is, or with [Parameter] bound to the
    [Option] class besides: when the class body binds [__annotations__]
    to [None], a [bool], an [int] or a [str] and has an eligible
    attribute, class construction raises [AttributeError] for [get] with
    nothing recorded: the annotation is looked up (line 126) before the
    name [Parameter] is read (line 128). *)
Theorem annotations_without_get_AttributeError
    valid G classname bases attrs a k v :
  known_globals G →
  dict_get attrs "__annotations__" = Some a →
  primitive a →
  (k, v) ∈ attrs →
  eligible k v →
  CommandMeta_new valid G classname bases attrs
  = (fresh_locals, Raise (AttributeError "get")).
Proof.
  intros _ Ha Hprim Hin Hel. unfold CommandMeta_new, CommandMeta_new_body.
  rewrite dict_get_set_ne, Ha by done. simpl default.
  assert (Hnd : ∀ items, a ≠ VDict items) by (intros items ->; done).
  unfold bind at 1. rewrite loop_no_dictionary by done.
  rewrite forallb_skipped_dict_set by done.
  destruct (forallb _ attrs) eqn:Hall; [| done].
  by destruct (proj1 (forallb_skipped_iff attrs) Hall k v Hin).
Qed.

Lemma annotations_without_get_AttributeError_witness :
  known_globals module_globals
  ∧ dict_get Odd_body "__annotations__" = Some VNone
  ∧ primitive VNone
  ∧ ("size", VInt 1) ∈ Odd_body
  ∧ eligible "size" (VInt 1)
  ∧ CommandMeta_new any_name module_globals "Odd" [SlashCommand] Odd_body
    = (fresh_locals, Raise (AttributeError "get")).
Proof.
  assert (HG : known_globals module_globals) by (by left).
  assert (Hin : ("size", VInt 1) ∈ Odd_body)
    by (apply list_elem_of_In; simpl; tauto).
  assert (Hel : eligible "size" (VInt 1))
    by (apply skipped_false_iff_eligible; reflexivity).
  exact (conj HG (conj eq_refl (conj I (conj Hin (conj Hel
    (annotations_without_get_AttributeError any_name module_globals "Odd"
       [SlashCommand] Odd_body VNone "size" (VInt 1) HG eq_refl I Hin
       Hel)))))).
Defined.

(** ** The names of the parameters of a created class *)

Section Names.

Variable valid : string → bool.
Variable G : gmap string value.

Lemma store_parameter_names k d ds n ann l l' :
  (p <- ParameterData_init valid k d ann ;;
   modify (append_argument p) ;;
   when (negb (is_MISSING ds)) (modify (set_description k ds)) ;;
   when (negb (is_MISSING n)) (modify (set_rename k n))) l = (l', Ok tt) →
  param_name <$> arguments l' = (param_name <$> arguments l) ++ [k]
  ∧ valid k = true.
Proof.
  intros Hrun.
  apply bind_inv in Hrun as [(l1 & p & H1 & Hrun) | (e & _ & [=])].
  pose proof H1 as Hv. unfold ParameterData_init in Hv.
  destruct (valid k); [| done]. clear Hv.
  apply ParameterData_init_name in H1 as [-> Hp].
  unfold bind, modify, when in Hrun.
  destruct (is_MISSING ds), (is_MISSING n); simpl in Hrun;
    injection Hrun as <-; simpl; by rewrite fmap_app, <- Hp.
Qed.

Lemma visit_names a k v l l' :
  visit valid G a (k, v) l = (l', Ok tt) →
  param_name <$> arguments l'
  = (param_name <$> arguments l) ++ (if skipped k v then [] else [k])
  ∧ (skipped k v = false → valid k = true).
Proof.
  intros Hrun. unfold visit in Hrun.
  destruct (skipped k v).
  { injection Hrun as <-. by rewrite app_nil_r. }
  apply bind_inv in Hrun as [(l1 & ann & H1 & Hrun) | (e & _ & [=])];
    apply get_method_store in H1 as ->.
  apply bind_inv in Hrun as [(l1 & cls & H1 & Hrun) | (e & _ & [=])];
    apply load_name_store in H1 as ->.
  apply bind_inv in Hrun as [(l1 & b & H1 & Hrun) | (e & _ & [=])];
    apply isinstance_store in H1 as ->.
  apply bind_inv in Hrun as [(l1 & [[d ds] n] & H1 & Hrun) | (e & _ & [=])].
  assert (l1 = l) as ->.
  { destruct b; [| destruct (is_MISSING v); by injection H1].
    apply bind_inv in H1 as [(l2 & ? & H2 & H1) | (? & _ & [=])];
      apply getattr_store in H2 as ->.
    apply bind_inv in H1 as [(l2 & ? & H2 & H1) | (? & _ & [=])];
      apply getattr_store in H2 as ->.
    apply bind_inv in H1 as [(l2 & ? & H2 & H1) | (? & _ & [=])];
      apply getattr_store in H2 as ->.
    by injection H1. }
  apply store_parameter_names in Hrun as [-> Hv]. done.
Qed.

Lemma loop_names a items l l' :
  for_each items (visit valid G a) l = (l', Ok tt) →
  param_name <$> arguments l'
  = (param_name <$> arguments l)
    ++ (filter (λ item, skipped item.1 item.2 = false) items).*1
  ∧ ∀ k v, (k, v) ∈ items → skipped k v = false → valid k = true.
Proof.
  revert l. induction items as [|[k v] items IH]; intros l Hrun.
  { injection Hrun as <-. rewrite app_nil_r. split; [done |].
    intros k v Hin. by apply elem_of_nil in Hin. }
  rewrite for_each_cons in Hrun.
  destruct (visit valid G a (k, v) l) as [l1 [[]|e]] eqn:Hv; [| done].
  apply visit_names in Hv as [Hnames Hvalid].
  apply IH in Hrun as [-> Hrest]. rewrite Hnames, filter_cons. simpl.
  split.
  - destruct (skipped k v); case_decide; try done.
    + by rewrite app_nil_r.
    + by rewrite <- app_assoc.
  - intros k' v' [[= -> ->] | Hin]%elem_of_cons; eauto.
Qed.

Lemma filter_skipped_dict_set (attrs : list (string * value)) k v :
  String.prefix "_" k = true →
  filter (λ item, skipped item.1 item.2 = false) (dict_set attrs k v)
  = filter (λ item, skipped item.1 item.2 = false) attrs.
Proof.
  intros Hk. induction attrs as [|[k0 v0] attrs IH]; cbn [dict_set].
  - rewrite filter_cons. simpl. rewrite private_skipped by done.
    by case_decide.
  - destruct (String.eqb_spec k0 k).
    + subst k0. rewrite !filter_cons. simpl.
      rewrite !private_skipped by done. by repeat case_decide.
    + rewrite !filter_cons, IH. done.
Qed.

End Names.

Lemma elem_of_dict_set_ne {A} (d : list (string * A)) k k' v v' :
  (k, v) ∈ d → k ≠ k' → (k, v) ∈ dict_set d k' v'.
Proof.
  intros Hin Hne. induction d as [|[k0 v0] d IH]; simpl.
  - by apply elem_of_nil in Hin.
  - apply elem_of_cons in Hin as [Heq | Hin].
    + inversion Heq; subst k0 v0.
      destruct (String.eqb_spec k k'); [congruence | left].
    + destruct (String.eqb_spec k0 k'); right; auto.
Qed.

(** A class that the model creates has one parameter descriptor per
    eligible attribute, under its name and in the order of the body, and
    all eligible names have passed the test of the standard library. *)
Lemma created_names valid G classname bases attrs c :
  (CommandMeta_new valid G classname bases attrs).2 = Ok c →
  param_name <$> __discord_app_commands_params__ c
  = (filter (λ item, skipped item.1 item.2 = false) attrs).*1
  ∧ ∀ k v, (k, v) ∈ attrs → eligible k v → valid k = true.
Proof.
  rewrite CommandMeta_new_after_loop. cbv zeta.
  destruct (for_each _ _ fresh_locals) as [l [[]|e]] eqn:Hloop; [| done].
  destruct (load_name G "type" l) as [l1 [ty|e]] eqn:Hty; [| done].
  apply load_name_store in Hty as ->.
  destruct (_ && _); [done |]. simpl. intros [= <-]. simpl.
  apply loop_names in Hloop as [-> Hvalid].
  rewrite filter_skipped_dict_set by done. split; [done |].
  intros k v Hin Hel.
  apply (Hvalid k v); [| by apply skipped_false_iff_eligible].
  apply elem_of_dict_set_ne; [done |].
  intros ->. by destruct Hel as (Hp & _ & _).
Qed.

(** ** The metadata when [Parameter] names the [Option] class *)

Section WithParameter.

Variable valid : string → bool.
Variable classname : string.
Variable bases : list pyclass.
Variable attrs : list (string * value).
Variable c : CommandClass.

Hypothesis body : ordinary_body attrs.
Hypothesis created :
  (CommandMeta_new valid globals_with_Parameter classname bases attrs).2
  = Ok c.

Lemma created_names_valid :
  ∀ k v, (k, v) ∈ attrs → eligible k v → valid k = true.
Proof.
  exact (proj2 (created_names valid globals_with_Parameter classname bases
                  attrs c created)).
Qed.

(** X7.  With [Parameter] bound to the [Option] class besides the
    module's own names, a class created from an ordinary class body has
    one parameter descriptor per eligible attribute, under the
    attribute's name and in the order of the class body; each descriptor
    carries the annotation of its attribute, or the string ['str'] when
    the attribute has none. *)
Theorem parameters_follow_declaration_order :
  param_name <$> __discord_app_commands_params__ c
  = (filter (λ item, skipped item.1 item.2 = false) attrs).*1
  ∧ ∀ p, p ∈ __discord_app_commands_params__ c →
         param_annotation p
         = match dict_get (annotations_of attrs) (param_name p) with
           | Some a => if is_MISSING a then V_empty else a
           | None => VStr "str"
           end.
Proof.
  destruct body as (_ & _ & Hwf & _ & _).
  destruct (parameters_once_bound valid globals_with_Parameter eq_refl eq_refl
              classname bases attrs Hwf created_names_valid)
    as (c' & Hc & Hparams).
  rewrite created in Hc. injection Hc as <-. rewrite Hparams. split.
  - rewrite <- list_fmap_compose. by apply list_fmap_ext.
  - intros p ([k v] & -> & _)%list_elem_of_fmap. simpl.
    by destruct (dict_get (annotations_of attrs) k).
Qed.

(** X8.  With [Parameter] bound to the [Option] class besides the
    module's own names, in a class created from an ordinary class body an
    eligible attribute that holds [Option(d, n, desc)], none of the three
    being [MISSING], has a descriptor with default [d], the rename [n]
    and the description [desc]. *)
Theorem Option_attribute_metadata k d n desc ac :
  (k, Option d n desc ac) ∈ attrs →
  eligible k (Option d n desc ac) →
  d ≠ VMISSING → n ≠ VMISSING → desc ≠ VMISSING →
  ∃ p, p ∈ __discord_app_commands_params__ c
       ∧ param_name p = k ∧ param_default p = d
       ∧ __discord_app_commands_param_rename__ c ≫= (.!! k) = Some n
       ∧ __discord_app_commands_param_description__ c ≫= (.!! k)
         = Some desc.
Proof.
  intros Hin Hel Hd Hn Hdesc.
  destruct body as (Hnd & _ & Hwf & _ & _).
  apply is_MISSING_false in Hd, Hn, Hdesc.
  destruct (Option_attribute_once_bound valid globals_with_Parameter
              eq_refl eq_refl classname bases attrs Hwf created_names_valid
              k d n desc ac Hnd Hin Hel Hd Hn Hdesc)
    as (c' & p & Hc & Hp).
  rewrite created in Hc. injection Hc as <-. by exists p.
Qed.

(** X9.  With [Parameter] bound to the [Option] class besides the
    module's own names, in a class created from an ordinary class body an
    eligible attribute that holds a bare [None], [bool], [int] or [str]
    value [v] has a descriptor with default [v], and neither a rename
    nor a description. *)
Theorem bare_value_metadata k v :
  (k, v) ∈ attrs →
  eligible k v →
  primitive v →
  ∃ p, p ∈ __discord_app_commands_params__ c
       ∧ param_name p = k ∧ param_default p = v
       ∧ __discord_app_commands_param_rename__ c ≫= (.!! k) = None
       ∧ __discord_app_commands_param_description__ c ≫= (.!! k) = None.
Proof.
  intros Hin Hel Hv.
  destruct body as (Hnd & _ & Hwf & _ & _).
  assert (Hty : type_of v ≠ COption) by (by destruct v).
  assert (Hm : is_MISSING v = false) by (by destruct v).
  destruct (bare_value_once_bound valid globals_with_Parameter
              eq_refl eq_refl classname bases attrs Hwf created_names_valid
              k v Hnd Hin Hel Hty Hm)
    as (c' & p & Hc & Hp).
  rewrite created in Hc. injection Hc as <-. by exists p.
Qed.

(** X10.  With [Parameter] bound to the [Option] class besides the
    module's own names, in a class created from an ordinary class body an
    eligible attribute that holds [MISSING], or an [Option] built with
    default, name and description all [MISSING], has a descriptor whose
    default is [inspect.Parameter.empty], and neither a rename nor a
    description. *)
Theorem unset_attribute_metadata k v :
  (k, v) ∈ attrs →
  eligible k v →
  v = VMISSING ∨ (∃ ac, v = Option VMISSING VMISSING VMISSING ac) →
  ∃ p, p ∈ __discord_app_commands_params__ c
       ∧ param_name p = k ∧ param_default p = V_empty
       ∧ __discord_app_commands_param_rename__ c ≫= (.!! k) = None
       ∧ __discord_app_commands_param_description__ c ≫= (.!! k) = None.
Proof.
  intros Hin Hel Hv.
  destruct body as (Hnd & _ & Hwf & _ & _).
  destruct (attribute_once_bound valid globals_with_Parameter eq_refl eq_refl
              classname bases attrs Hwf created_names_valid k v Hnd Hin Hel)
    as (c' & Hc & Hp & Hr & Hds).
  rewrite created in Hc. injection Hc as <-.
  exists (descriptor (annotations_of attrs) k v).
  destruct Hv as [-> | [ac ->]]; simpl in Hr, Hds; repeat split; done.
Qed.

End WithParameter.

Lemma parameters_follow_declaration_order_witness :
  ordinary_body Greet_body
  ∧ ∃ c, (CommandMeta_new any_name globals_with_Parameter "Greet"
            [SlashCommand] Greet_body).2 = Ok c
         ∧ param_name <$> __discord_app_commands_params__ c
           = ["who"; "greeting"; "loud"].
Proof.
  assert (Hbody : ordinary_body Greet_body) by solve_ordinary_body.
  split; [exact Hbody |]. eexists.
  exact (conj eq_refl (proj1
    (parameters_follow_declaration_order any_name "Greet" [SlashCommand]
       Greet_body _ Hbody eq_refl))).
Defined.

Lemma Option_attribute_metadata_witness :
  ordinary_body Ban_body
  ∧ eligible "days" (Option (VInt 7) (VStr "delete_days")
                       (VStr "Days of messages to delete") false)
  ∧ ∃ c, (CommandMeta_new any_name globals_with_Parameter "Ban"
              [SlashCommand] Ban_body).2 = Ok c
         ∧ ∃ p, p ∈ __discord_app_commands_params__ c
           ∧ param_name p = "days" ∧ param_default p = VInt 7
           ∧ __discord_app_commands_param_rename__ c ≫= (.!! "days")
             = Some (VStr "delete_days")
           ∧ __discord_app_commands_param_description__ c ≫= (.!! "days")
             = Some (VStr "Days of messages to delete").
Proof.
  assert (Hbody : ordinary_body Ban_body) by solve_ordinary_body.
  assert (Hin : ("days", Option (VInt 7) (VStr "delete_days")
                           (VStr "Days of messages to delete") false)
                ∈ Ban_body)
    by (apply list_elem_of_In; simpl; tauto).
  assert (Hel : eligible "days" (Option (VInt 7) (VStr "delete_days")
                                   (VStr "Days of messages to delete") false))
    by (apply skipped_false_iff_eligible; reflexivity).
  split; [exact Hbody |]. split; [exact Hel |]. eexists.
  exact (conj eq_refl
    (Option_attribute_metadata any_name "Ban" [SlashCommand] Ban_body _
       Hbody eq_refl "days" (VInt 7) (VStr "delete_days")
       (VStr "Days of messages to delete") false Hin Hel
       ltac:(discriminate) ltac:(discriminate) ltac:(discriminate))).
Defined.

Lemma bare_value_metadata_witness :
  ordinary_body Echo_body
  ∧ eligible "times" (VInt 3)
  ∧ ∃ c, (CommandMeta_new any_name globals_with_Parameter "Echo"
              [SlashCommand] Echo_body).2 = Ok c
         ∧ ∃ p, p ∈ __discord_app_commands_params__ c
           ∧ param_name p = "times" ∧ param_default p = VInt 3
           ∧ __discord_app_commands_param_rename__ c ≫= (.!! "times") = None
           ∧ __discord_app_commands_param_description__ c ≫= (.!! "times")
             = None.
Proof.
  assert (Hbody : ordinary_body Echo_body) by solve_ordinary_body.
  assert (Hin : ("times", VInt 3) ∈ Echo_body)
    by (apply list_elem_of_In; simpl; tauto).
  assert (Hel : eligible "times" (VInt 3))
    by (apply skipped_false_iff_eligible; reflexivity).
  split; [exact Hbody |]. split; [exact Hel |]. eexists.
  exact (conj eq_refl
    (bare_value_metadata any_name "Echo" [SlashCommand] Echo_body _
       Hbody eq_refl "times" (VInt 3) Hin Hel I)).
Defined.

Lemma unset_attribute_metadata_witness :
  ordinary_body Tag_body
  ∧ eligible "text" VMISSING
  ∧ ∃ c, (CommandMeta_new any_name globals_with_Parameter "Tag"
              [SlashCommand] Tag_body).2 = Ok c
         ∧ ∃ p, p ∈ __discord_app_commands_params__ c
           ∧ param_name p = "text" ∧ param_default p = V_empty
           ∧ __discord_app_commands_param_rename__ c ≫= (.!! "text") = None
           ∧ __discord_app_commands_param_description__ c ≫= (.!! "text")
             = None.
Proof.
  assert (Hbody : ordinary_body Tag_body) by solve_ordinary_body.
  assert (Hin : ("text", VMISSING) ∈ Tag_body)
    by (apply list_elem_of_In; simpl; tauto).
  assert (Hel : eligible "text" VMISSING)
    by (apply skipped_false_iff_eligible; reflexivity).
  split; [exact Hbody |]. split; [exact Hel |]. eexists.
  exact (conj eq_refl
    (unset_attribute_metadata any_name "Tag" [SlashCommand] Tag_body _
       Hbody eq_refl "text" VMISSING Hin Hel (or_introl eq_refl))).
Defined.

(** * Further properties of [Command.send] and [Command.defer] *)

Section ReplyPaths.

Context `{Interaction W}.

(** What [send] does while the interaction is live. *)
Lemma send_live (a : send_arguments) (w : W) :
  is_expired w = false →
  send a w
  = if response_is_done w
    then await (followup_send (kwargs a ++ [("wait", VBool true)])) w
    else (await (response_send_message (kwargs a)) ;;
          await original_message) w.
Proof.
  intros He. unfold send. unfold bind at 1, gets at 1. rewrite He.
  unfold bind at 1, gets at 1. by destruct (response_is_done w).
Qed.

(** What [send] does once the interaction has a response. *)
Lemma send_later (a : send_arguments) (w : W) :
  response_is_done w = true →
  send a w = await (later_request a w) w.
Proof.
  intros Hd. unfold later_request, send, bind, gets.
  destruct (is_expired w); [done |]. by rewrite Hd.
Qed.

(** X11.  While the interaction is live, [nonce] is dropped: the keyword
    is absent from the arguments that go to the follow-up send and to the
    initial response, and [send] does the same whatever its value.  Only
    the channel send gets it. *)
Theorem nonce_dropped_while_live (a : send_arguments) (w : W) :
  is_expired w = false →
  ("nonce" ∉ keys (kwargs a))
  ∧ (∀ n, send (with_nonce n a) w = send a w)
  ∧ dict_get (channel_kwargs a) "nonce" = Some (nonce a).
Proof.
  intros He. split; [| split; [| done]].
  - unfold keys, kwargs. simpl. rewrite !elem_of_cons, elem_of_nil.
    intros Hin. repeat destruct Hin as [Hin | Hin]; first [discriminate | done].
  - intros n. by rewrite !send_live.
Qed.

(** X12.  While the interaction is live, [send] hands the host the
    ten keyword arguments of lines 297 to 308.  Under [embed], [embeds],
    [file], [files], [allowed_mentions] and [view] goes [MISSING] when
    the argument is [None], and the argument itself otherwise; under
    [content], [tts], [suppress_embeds] and [ephemeral] goes the argument
    as given, [None] included. *)
Theorem live_arguments_normalised (a : send_arguments) (w : W) :
  is_expired w = false →
  (send a w = await (followup_send (kwargs a ++ [("wait", VBool true)])) w
   ∨ send a w = (await (response_send_message (kwargs a)) ;;
                 await original_message) w)
  ∧ keys (kwargs a)
    = [ "content"; "tts"; "embed"; "embeds"; "file"; "files";
        "allowed_mentions"; "view"; "suppress_embeds"; "ephemeral" ]
  ∧ (∀ k x,
       (k, x) ∈ [ ("embed", embed a); ("embeds", embeds a); ("file", file a);
                  ("files", files a);
                  ("allowed_mentions", allowed_mentions a);
                  ("view", view a) ] →
       dict_get (kwargs a) k
       = Some (match x with VNone => VMISSING | _ => x end))
  ∧ (∀ k x,
       (k, x) ∈ [ ("content", content a); ("tts", tts a);
                  ("suppress_embeds", suppress_embeds a);
                  ("ephemeral", ephemeral a) ] →
       dict_get (kwargs a) k = Some x).
Proof.
  intros He. split.
  { rewrite send_live by done. destruct (response_is_done w); auto. }
  split; [done |]. split; intros k x Hin;
    rewrite !elem_of_cons, elem_of_nil in Hin;
    repeat destruct Hin as [Hin | Hin]; try done;
    by injection Hin as -> ->.
Qed.

(** X14.  On a host whose [response.send_message] marks the response as
    done, and whose fetch of the original message leaves it so, a [send]
    that follows a first, successful [send] on a fresh interaction never
    answers the interaction a second time: it is the follow-up send, or
    the channel send if the interaction has expired meanwhile. *)
Theorem second_send_is_later_request (a b : send_arguments) (w w1 : W) m :
  (∀ kw w0 w0' r, await (response_send_message kw) w0 = (w0', Ok r) →
                  response_is_done w0' = true) →
  (∀ w0 w0' r, await original_message w0 = (w0', Ok r) →
               response_is_done w0 = true → response_is_done w0' = true) →
  is_expired w = false →
  response_is_done w = false →
  send a w = (w1, Ok m) →
  send b w1 = await (later_request b w1) w1.
Proof.
  intros Hsend Hfetch He Hd Hrun. apply send_later.
  rewrite send_live, Hd in Hrun by done.
  apply bind_inv in Hrun as [(w0 & r & H1 & Hrun) | (e & _ & [=])].
  eauto.
Qed.

Context `{Deferral W}.

(** X15.  [defer] passes [ephemeral] to the host's deferral and returns
    [None] whatever the deferral returns; an exception of the deferral
    comes out of [defer] as it is.  On a host whose deferral marks the
    response as done, a [send] that follows a successful [defer] is the
    follow-up send, or the channel send if the interaction is expired. *)
Theorem send_after_defer (e : value) (a : send_arguments) (w w1 : W) o :
  (∀ kw w0 w0' r, response_defer kw w0 = (w0', Ok r) →
                  response_is_done w0' = true) →
  defer e w = (w1, o) →
  match o with
  | Ok r => r = VNone
            ∧ (∃ r', response_defer [("ephemeral", e)] w = (w1, Ok r'))
            ∧ send a w1 = await (later_request a w1) w1
  | Raise x => response_defer [("ephemeral", e)] w = (w1, Raise x)
  end.
Proof.
  intros Hdefer Hrun. unfold defer in Hrun.
  apply bind_inv in Hrun as [(w0 & r & H1 & Hrun) | (x & H1 & ->)]; [| done].
  injection Hrun as <- <-. split; [done |]. split; [eauto |].
  apply send_later. eauto.
Qed.

End ReplyPaths.

Lemma nonce_dropped_while_live_witness :
  is_expired fresh_interaction = false
  ∧ send (with_nonce (VInt 9) again) fresh_interaction
    = send again fresh_interaction
  ∧ send again fresh_interaction
    = ({| expired := false; responded := true;
          received := [response_send_message (kwargs again); original_message] |},
       Ok (VObject "InteractionMessage" "original response")).
Proof.
  exact (conj eq_refl (conj
    (proj1 (proj2 (nonce_dropped_while_live again fresh_interaction eq_refl))
       (VInt 9))
    eq_refl)).
Defined.

Lemma live_arguments_normalised_witness :
  is_expired fresh_interaction = false
  ∧ dict_get (kwargs look) "embed" = Some (VObject "Embed" "card")
  ∧ dict_get (kwargs look) "file" = Some VMISSING
  ∧ dict_get (kwargs look) "content" = Some VNone.
Proof.
  pose proof (live_arguments_normalised look fresh_interaction eq_refl)
    as (_ & _ & Hsix & Hfour).
  assert (Hembed : ("embed", embed look)
                   ∈ [ ("embed", embed look); ("embeds", embeds look);
                       ("file", file look); ("files", files look);
                       ("allowed_mentions", allowed_mentions look);
                       ("view", view look) ]) by left.
  assert (Hfile : ("file", file look)
                  ∈ [ ("embed", embed look); ("embeds", embeds look);
                      ("file", file look); ("files", files look);
                      ("allowed_mentions", allowed_mentions look);
                      ("view", view look) ]) by (do 2 right; left).
  assert (Hcontent : ("content", content look)
                     ∈ [ ("content", content look); ("tts", tts look);
                         ("suppress_embeds", suppress_embeds look);
                         ("ephemeral", ephemeral look) ]) by left.
  exact (conj eq_refl (conj (Hsix _ _ Hembed)
           (conj (Hsix _ _ Hfile) (Hfour _ _ Hcontent)))).
Defined.

Lemma second_send_is_later_request_witness :
  send hello fresh_interaction
  = ({| expired := false; responded := true;
        received := [response_send_message (kwargs hello); original_message] |},
     Ok (VObject "InteractionMessage" "original response"))
  ∧ send again
      {| expired := false; responded := true;
         received := [response_send_message (kwargs hello); original_message] |}
    = ({| expired := false; responded := true;
          received := [ response_send_message (kwargs hello); original_message;
                        followup_send (kwargs again ++ [("wait", VBool true)]) ] |},
       Ok (VObject "WebhookMessage" "sent as a followup")).
Proof.
  assert (Hsend : ∀ kw (w0 w0' : recorder) r,
            await (response_send_message kw) w0 = (w0', Ok r) →
            response_is_done w0' = true)
    by (intros kw w0 w0' r [= <- _]; reflexivity).
  assert (Hfetch : ∀ (w0 w0' : recorder) r,
            await original_message w0 = (w0', Ok r) →
            response_is_done w0 = true → response_is_done w0' = true)
    by (intros w0 w0' r [= <- _] Hd; exact Hd).
  exact (conj eq_refl
    (second_send_is_later_request hello again fresh_interaction _ _
       Hsend Hfetch eq_refl eq_refl eq_refl)).
Defined.

Lemma send_after_defer_witness :
  defer (VBool true) fresh_interaction
  = ({| expired := false; responded := true; received := [] |}, Ok VNone)
  ∧ send hello {| expired := false; responded := true; received := [] |}
    = ({| expired := false; responded := true;
          received := [followup_send (kwargs hello ++ [("wait", VBool true)])] |},
       Ok (VObject "WebhookMessage" "sent as a followup")).
Proof.
  assert (Hdefer : ∀ kw (w0 w0' : recorder) r,
            response_defer kw w0 = (w0', Ok r) → response_is_done w0' = true)
    by (intros kw w0 w0' r [= <- _]; reflexivity).
  exact (conj eq_refl (proj2 (proj2
    (send_after_defer (VBool true) hello fresh_interaction _ (Ok VNone)
       Hdefer eq_refl)))).
Defined.
